(** * EBA disclosure-consistency pipeline: numeric normalisation and reconciliation

    A shallow embedding of the numeric core of the scripts

      - [scripts/step1b_fixed_parser.py]        ([Step1b]: [parse_bank])
      - [scripts/step2b_taxonomy_quantscore.py] ([Step2b]: the loop over the
                                                 banks in [main])
      - [scripts/step2c_currency_fix.py]        ([Step2c]: [get_fx_rate] and the
                                                 conversion loop of [main])
      - [scripts/step3_das_scoring.py]          ([Step3]: [compute_dci])

    and the properties of unit normalisation, exposure ratio, currency
    conversion and composite index that hold of them.

    Conventions of the embedding.

      - A Python/pandas float is a [cell]: [None] is NaN (an empty CSV cell, a
        missing key read with [.get(k, np.nan)]), [Some q] is a finite number
        [q : Q].  Arithmetic is exact rational arithmetic: binary64 rounding
        is outside the model.  [pd.notna] is [notna].  Where the source can
        divide by zero ([compute_dci]) the result type has the infinities.
      - A Python [dict] with string keys is a [gmap string _]; a dict that is
        iterated ([CPRS_DPS]) is an association list in insertion order.
      - A [DataFrame] is the list of its rows, a row the map of its float
        columns next to its text fields; file input and output, printing and
        the remote scoring call are not modelled.
      - Text is ASCII. *)

From Stdlib Require Import ZArith QArith Qround Lqa Lia List String Ascii Bool Sorted.
From stdpp Require Import gmap strings list fin_maps.

Import ListNotations.
Local Open Scope string_scope.

(** ** Floats as optional rationals *)

Abbreviation cell := (option Q).

Definition notna (x : cell) : bool :=
  match x with Some _ => true | None => false end.

Definition Qpos_b (q : Q) : bool := negb (Qle_bool q 0).

(** [x > 0] on a float: false on NaN. *)
Definition gt0 (x : cell) : bool :=
  match x with Some q => Qpos_b q | None => false end.

(** [a * b] and [a / b] on floats; NaN is absorbing.  [fdiv] is only used
    where the source guards the divisor with [> 0]. *)
Definition fmul (a b : cell) : cell :=
  match a, b with Some x, Some y => Some (x * y)%Q | _, _ => None end.

Definition fdiv (a b : cell) : cell :=
  match a, b with Some x, Some y => Some (x / y)%Q | _, _ => None end.

(** ** Python string methods (on ASCII text) *)

Module PyStr.

Definition is_upper (c : ascii) : bool :=
  let n := nat_of_ascii c in (65 <=? n)%nat && (n <=? 90)%nat.
Definition is_lower (c : ascii) : bool :=
  let n := nat_of_ascii c in (97 <=? n)%nat && (n <=? 122)%nat.
Definition is_digit (c : ascii) : bool :=
  let n := nat_of_ascii c in (48 <=? n)%nat && (n <=? 57)%nat.
(** [str.isspace] on ASCII: TAB, LF, VT, FF, CR, FS, GS, RS, US, SPACE. *)
Definition is_space (c : ascii) : bool :=
  let n := nat_of_ascii c in
  ((9 <=? n)%nat && (n <=? 13)%nat) || ((28 <=? n)%nat && (n <=? 32)%nat).

Definition upper_char (c : ascii) : ascii :=
  if is_lower c then ascii_of_nat (nat_of_ascii c - 32) else c.

(** [s.upper()] *)
Fixpoint upper (s : string) : string :=
  match s with
  | EmptyString => EmptyString
  | String c r => String (upper_char c) (upper r)
  end.

Fixpoint lstrip (s : string) : string :=
  match s with
  | String c r => if is_space c then lstrip r else s
  | EmptyString => EmptyString
  end.

(** [rstrip]: a trailing run of whitespace is dropped. *)
Fixpoint rstrip (s : string) : string :=
  match s with
  | EmptyString => EmptyString
  | String c r =>
      match rstrip r with
      | EmptyString => if is_space c then EmptyString else String c EmptyString
      | r' => String c r'
      end
  end.

(** [s.strip()] *)
Definition strip (s : string) : string := rstrip (lstrip s).

(** [s.startswith(p)] *)
Definition startswith (p s : string) : bool := String.prefix p s.

(** [sub in s] *)
Fixpoint contains (sub s : string) : bool :=
  startswith sub s ||
  match s with
  | EmptyString => false
  | String _ r => contains sub r
  end.

(** [s.replace(old, new)] for a non-empty [old]: non-overlapping
    occurrences, left to right.  [skip] counts the characters of a matched
    occurrence that are still to be dropped. *)
Fixpoint replace_from (old new : string) (skip : nat) (s : string) : string :=
  match s with
  | EmptyString => EmptyString
  | String c r =>
      match skip with
      | S k => replace_from old new k r
      | O =>
          if startswith old s
          then new +:+ replace_from old new (String.length old - 1) r
          else String c (replace_from old new 0 r)
      end
  end.

Definition replace (old new s : string) : string := replace_from old new 0 s.

(** [s[:n]] *)
Definition take (n : nat) (s : string) : string := String.substring 0 n s.

(** [int(s)]: surrounding whitespace, an optional sign, decimal digits with
    single underscores between them; [None] is [ValueError]. *)
Fixpoint digits_value (acc : Z) (prev_digit : bool) (s : string) : option Z :=
  match s with
  | EmptyString => if prev_digit then Some acc else None
  | String c r =>
      if is_digit c
      then digits_value (10 * acc + Z.of_nat (nat_of_ascii c - 48)) true r
      else if Ascii.eqb c "_" && prev_digit
           then match r with
                | String d _ => if is_digit d then digits_value acc false r else None
                | EmptyString => None
                end
           else None
  end.

Definition int (s : string) : option Z :=
  match strip s with
  | String "-" r => Z.opp <$> digits_value 0 false r
  | String "+" r => digits_value 0 false r
  | t => digits_value 0 false t
  end.

End PyStr.

(** ** Step 1b: the per-bank parser *)

Module Step1b.

(** Grand total datapoint. *)
Definition DP_GRAND_TOTAL : string := "dp471828".

(** CPRS fossil fuel datapoints, in the insertion order of the dict. *)
Definition CPRS_DPS : list (string * string) :=
  [ ("dp471326", "B5_coal");
    ("dp471332", "B6_oilgas");
    ("dp471410", "C19_petrol");
    ("dp471566", "D35_2_gas") ].

Definition is_lei_char (c : ascii) : bool := PyStr.is_upper c || PyStr.is_digit c.

Fixpoint all_chars (p : ascii -> bool) (s : string) : bool :=
  match s with
  | EmptyString => true
  | String c r => p c && all_chars p r
  end.

(** [LEI_PATTERN.match(name)] with [^([A-Z0-9]{20})\.]: group 1, if any. *)
Definition lei_match (name : string) : option string :=
  let head := PyStr.take 20 name in
  if (String.length head =? 20)%nat && all_chars is_lei_char head
     && PyStr.startswith "." (String.substring 20 1 name)
  then Some head else None.

(** [re.search] of [\.(CON|IND)_([A-Z]{2})_]: leftmost match, as
    (group 1, group 2). *)
Definition country_at (s : string) : option (string * string) :=
  let kind := String.substring 1 3 s in
  let cc := String.substring 5 2 s in
  if PyStr.startswith "." s
     && (String.eqb kind "CON" || String.eqb kind "IND")
     && String.eqb (String.substring 4 1 s) "_"
     && (String.length cc =? 2)%nat && all_chars PyStr.is_upper cc
     && String.eqb (String.substring 7 1 s) "_"
  then Some (kind, cc) else None.

Fixpoint country_search (s : string) : option (string * string) :=
  match country_at s with
  | Some m => Some m
  | None =>
      match s with
      | EmptyString => None
      | String _ r => country_search r
      end
  end.

(** What [parse_bank] reads of a bank folder: its name and, where the file
    exists, the cleaned key/value pairs of [reports/parameters.csv] and the
    (datapoint, factValue) rows of [reports/k_41.00.csv]. *)
Record folder := {
  name : string;
  parameters_csv : option (gmap string string);
  k_41_00_csv : option (list (string * cell));
}.

(** The result dict.  The float-valued keys written by the Template 1 block
    live in [floats], so that a key that was never written is absent. *)
Record result := {
  folder_name : string;
  lei : option string;
  ref_period : option string;
  base_currency : option string;
  decimals : Z;
  scale_factor : Q;
  parse_ok : bool;
  errors : list string;
  country : option string;
  entity_type : option string;
  has_template1 : option bool;
  floats : gmap string cell;
}.

Definition initial (f : folder) : result :=
  {| folder_name := name f; lei := None; ref_period := None;
     base_currency := None; decimals := (-6)%Z; scale_factor := (1 # 1000000)%Q;
     parse_ok := false; errors := []; country := None; entity_type := None;
     has_template1 := None; floats := ∅ |}.

(** [dict(zip(keys, values))]: a later row overwrites an earlier one. *)
Definition dict_of_rows (rows : list (string * cell)) : gmap string cell :=
  foldl (fun m kv => <[kv.1 := kv.2]> m) ∅ rows.

(** [dp_vals.get(dp, np.nan)] *)
Definition get (m : gmap string cell) (k : string) : cell :=
  default None (m !! k).

(** State of the loop over [CPRS_DPS.items()]. *)
Record fossil_state := {
  out : gmap string cell;
  fossil_total : Q;
  fossil_found : bool;
}.

Definition fossil_step (sf : Q) (dp_vals : gmap string cell)
    (st : fossil_state) (item : string * string) : fossil_state :=
  let '(dp, label) := item in
  match get dp_vals dp with
  | Some raw =>
      if Qpos_b raw
      then let val_m := (raw * sf)%Q in
           {| out := <[label +:+ "_m_local" := Some val_m]> (out st);
              fossil_total := (fossil_total st + val_m)%Q;
              fossil_found := true |}
      else {| out := <[label +:+ "_m_local" := Some 0%Q]> (out st);
              fossil_total := fossil_total st;
              fossil_found := fossil_found st |}
  | None =>
      {| out := <[label +:+ "_m_local" := Some 0%Q]> (out st);
         fossil_total := fossil_total st;
         fossil_found := fossil_found st |}
  end.

(** The Template 1 block (the [else] branch at [has_template1 = True]). *)
Definition template1 (sf : Q) (dp_vals : gmap string cell)
    (fl : gmap string cell) : gmap string cell :=
  let raw_total := get dp_vals DP_GRAND_TOTAL in
  let total := if notna raw_total then fmul raw_total (Some sf) else None in
  let fl := <["total_gca_m_local" := total]> fl in
  let st := foldl (fossil_step sf dp_vals)
              {| out := fl; fossil_total := 0%Q; fossil_found := false |} CPRS_DPS in
  let fl := <["fossil_total_m_local" :=
               Some (if fossil_found st then fossil_total st else 0%Q)]> (out st) in
  if gt0 total
  then <["quant_score_pct" := fmul (fdiv (Some (fossil_total st)) total) (Some 100%Q)]>
         (<["quant_score" := fdiv (Some (fossil_total st)) total]> fl)
  else <["quant_score_pct" := None]> (<["quant_score" := None]> fl).

(** [parse_bank], up to and including the Template 1 block; the
    qualitative-text block that follows only adds the text fields. *)
Definition parse_bank (f : folder) : result :=
  let r := initial f in
  match lei_match (name f) with
  | None =>
      {| folder_name := folder_name r; lei := None; ref_period := ref_period r;
         base_currency := base_currency r; decimals := decimals r;
         scale_factor := scale_factor r; parse_ok := false;
         errors := ["cannot parse LEI from folder name"];
         country := None; entity_type := None; has_template1 := None;
         floats := ∅ |}
  | Some l =>
      match parameters_csv f with
      | None =>
          {| folder_name := folder_name r; lei := Some l; ref_period := ref_period r;
             base_currency := base_currency r; decimals := decimals r;
             scale_factor := scale_factor r; parse_ok := false;
             errors := ["parameters.csv missing"];
             country := None; entity_type := None; has_template1 := None;
             floats := ∅ |}
      | Some params_dict =>
          let decimals_raw := default "-6" (params_dict !! "decimalsMonetary") in
          let dec := default (-6)%Z (PyStr.int decimals_raw) in
          let sf := (1 / 1000000)%Q in
          let cm := country_search (name f) in
          {| folder_name := folder_name r; lei := Some l;
             ref_period := params_dict !! "refPeriod";
             base_currency :=
               Some (PyStr.replace "iso4217:" EmptyString
                       (default "iso4217:EUR" (params_dict !! "baseCurrency")));
             decimals := dec;
             scale_factor := sf;
             parse_ok := true;
             errors := match k_41_00_csv f with
                       | None => ["k_41.00.csv missing"]
                       | Some _ => []
                       end;
             country := snd <$> cm;
             entity_type := fst <$> cm;
             has_template1 := Some (bool_decide (is_Some (k_41_00_csv f)));
             floats := match k_41_00_csv f with
                       | None => ∅
                       | Some rows => template1 sf (dict_of_rows rows) ∅
                       end |}
      end
  end.

End Step1b.

(** ** Step 2b: taxonomy-based QuantScore *)

Module Step2b.

Inductive coverage := full | zero_fossil | no_data.

(** A row of the fossil part of the mapping table
    ([is_cprs_fossil] and column [c0010]). *)
Record fossil_dp := {
  datapoint : string;
  nac_code : string;
}.

(** A row of the wide Template 1 table: the identifier column and the
    numeric cell of every datapoint column ([None] in the map: the column
    does not exist; [Some None]: the cell is NaN). *)
Record t1_row := {
  lei : string;
  cells : gmap string cell;
}.

(** A row of [master_banks.csv], as far as it is read here. *)
Record bank := {
  bank_lei : string;
  total_gca_eur : cell;
  bank_country : string;
  bank_ref_period : string;
}.

(** A row of the output table.  The float columns are in [nums], under the
    keys of the dict appended to [results]. *)
Record qs_row := {
  out_lei : string;
  out_country : string;
  out_ref_period : string;
  out_coverage : coverage;
  nums : gmap string cell;
}.

(** [row.get(dp, np.nan)] *)
Definition get (row : gmap string cell) (k : string) : cell :=
  default None (row !! k).

(** [fossil_cols]: the fossil datapoints that are columns of the data. *)
Definition fossil_cols (fossil_dps : list fossil_dp) (columns : list string)
    : list string :=
  filter (fun dp => dp ∈ columns) (datapoint <$> fossil_dps).

(** [total_col], after the check that it is a column of the data. *)
Definition total_col (total_dps : list string) (columns : list string)
    : option string :=
  match total_dps with
  | dp :: _ => if bool_decide (dp ∈ columns) && negb (String.eqb dp EmptyString)
               then Some dp else None
  | [] => None
  end.

(** [fossil_dps[fossil_dps.datapoint == dp].nac_code.values[0]]; every
    [dp] of [fossil_cols] has such a row, so the last case is not reached. *)
Definition nac_of (fossil_dps : list fossil_dp) (dp : string) : string :=
  match filter (fun r => datapoint r = dp) fossil_dps with
  | r :: _ => nac_code r
  | [] => EmptyString
  end.

(** The loop over [fossil_cols]: the positive present values in order, and
    the breakdown by sector code. *)
Definition fossil_step (fossil_dps : list fossil_dp) (row : gmap string cell)
    (st : list Q * gmap string Q) (dp : string) : list Q * gmap string Q :=
  match get row dp with
  | Some val =>
      if Qpos_b val
      then ((st.1 ++ [val])%list, <[nac_of fossil_dps dp := val]> st.2)
      else st
  | None => st
  end.

Definition fossil_scan (fossil_dps : list fossil_dp) (cols : list string)
    (row : gmap string cell) : list Q * gmap string Q :=
  foldl (fossil_step fossil_dps row) ([], ∅) cols.

(** Python's [sum]: from 0, left to right. *)
Definition sum (l : list Q) : Q := foldl Qplus 0%Q l.

(** [sum(fossil_vals) if fossil_vals else np.nan] *)
Definition fossil_total_of (fossil_vals : list Q) : cell :=
  match fossil_vals with
  | [] => None
  | _ => Some (sum fossil_vals)
  end.

(** Rows of [banks] whose identifier starts with the first 15 characters
    of [lei]. *)
Definition bank_rows (banks : list bank) (l : string) : list bank :=
  filter (fun b => PyStr.startswith (PyStr.take 15 l) (bank_lei b) = true) banks.

Definition grand_total_of (tc : option string) (banks : list bank)
    (row : t1_row) : cell :=
  match tc with
  | Some c => get (cells row) c
  | None =>
      match bank_rows banks (lei row) with
      | b :: _ => total_gca_eur b
      | [] => None
      end
  end.

(** The three-way branch: (quant_score, fossil_total, coverage). *)
Definition quantscore (fossil_total grand_total : cell)
    : cell * cell * coverage :=
  if notna fossil_total && notna grand_total && gt0 grand_total
  then (fdiv fossil_total grand_total, fossil_total, full)
  else if notna grand_total && gt0 grand_total
  then (Some 0%Q, Some 0%Q, zero_fossil)
  else (None, fossil_total, no_data).

Definition per_million (x : cell) : cell :=
  if notna x then fdiv x (Some 1000000%Q) else None.

(** [fossil_breakdown.get(nac, 0) / 1e6] *)
Definition sector (fb : gmap string Q) (nac : string) : cell :=
  Some (default 0%Q (fb !! nac) / 1000000)%Q.

(** The sector columns of the output, with the sector code each reads. *)
Definition sector_columns : list (string * string) :=
  [ ("B5_coal_eur_m", "B5");
    ("B6_oilgas_eur_m", "B6");
    ("C19_petrol_eur_m", "C19");
    ("D35_2_gas_eur_m", "D35_2");
    ("G46_71_wholesale_eur_m", "G46_71");
    ("G47_3_retail_eur_m", "G47_3");
    ("H49_5_pipeline_eur_m", "H49_5") ].

(** The body of the loop over the banks. *)
Definition score_row (fossil_dps : list fossil_dp) (cols : list string)
    (tc : option string) (banks : list bank) (row : t1_row) : qs_row :=
  let '(fossil_vals, fossil_breakdown) := fossil_scan fossil_dps cols (cells row) in
  let grand_total := grand_total_of tc banks row in
  let '(quant_score, fossil_total, cov) :=
    quantscore (fossil_total_of fossil_vals) grand_total in
  let meta := bank_rows banks (lei row) in
  let base : gmap string cell :=
    <["quant_score_pct" := if notna quant_score
                           then fmul quant_score (Some 100%Q) else None]>
    (<["quant_score" := quant_score]>
    (<["fossil_total_eur_m" := per_million fossil_total]>
    (<["grand_total_eur_m" := per_million grand_total]> ∅))) in
  {| out_lei := lei row;
     out_country := match meta with b :: _ => bank_country b | [] => "unknown" end;
     out_ref_period := match meta with b :: _ => bank_ref_period b | [] => "unknown" end;
     out_coverage := cov;
     nums := foldl (fun m cn => <[cn.1 := sector fossil_breakdown cn.2]> m)
               base sector_columns |}.

(** Step 5 of [main]: one output row per bank. *)
Definition score_all (fossil_dps : list fossil_dp) (total_dps : list string)
    (columns : list string) (banks : list bank) (t1 : list t1_row)
    : list qs_row :=
  score_row fossil_dps (fossil_cols fossil_dps columns)
    (total_col total_dps columns) banks <$> t1.

End Step2b.

(** ** [sort_values]: a stable insertion sort

    [before x y] says that [x] may stand in front of [y].  pandas sorts with
    an unstable quicksort by default, so the order among equal keys is one
    of the orders the library may produce. *)

Section StableSort.
Context {A : Type} (before : A -> A -> bool).

Fixpoint insert_by (x : A) (l : list A) : list A :=
  match l with
  | [] => [x]
  | y :: r => if before x y then x :: l else y :: insert_by x r
  end.

Definition sort_by (l : list A) : list A := foldr insert_by [] l.
End StableSort.

(** ** Step 2c: currency correction *)

Module Step2c.

(** 1 unit of foreign currency = X EUR, end of June 2025. *)
Definition ECB_RATES_20250630 : gmap string Q :=
  list_to_map
    [ ("EUR", 1000000 # 1000000); ("HUF", 2538 # 1000000);
      ("PLN", 232019 # 1000000);  ("RON", 200803 # 1000000);
      ("SEK", 87108 # 1000000);   ("DKK", 134228 # 1000000);
      ("CZK", 40161 # 1000000);   ("HRK", 132626 # 1000000);
      ("CHF", 1063830 # 1000000); ("GBP", 1175978 # 1000000);
      ("USD", 921659 # 1000000);  ("NOK", 86957 # 1000000);
      ("BGN", 511292 # 1000000);  ("ALL", 9709 # 1000000);
      ("RSD", 8547 # 1000000);    ("BAM", 511292 # 1000000) ]%Q.

(** The same, end of December 2025. *)
Definition ECB_RATES_20251231 : gmap string Q :=
  list_to_map
    [ ("EUR", 1000000 # 1000000); ("HUF", 2525 # 1000000);
      ("PLN", 230000 # 1000000);  ("RON", 200000 # 1000000);
      ("SEK", 86000 # 1000000);   ("DKK", 134228 # 1000000);
      ("CZK", 39526 # 1000000);   ("CHF", 1052632 # 1000000);
      ("GBP", 1162791 # 1000000); ("USD", 909091 # 1000000);
      ("NOK", 85000 # 1000000);   ("BGN", 511292 # 1000000) ]%Q.

(** The currency code without its [iso4217:] marker, stripped of
    surrounding whitespace, in upper case. *)
Definition normalize_currency (currency : string) : string :=
  PyStr.upper (PyStr.strip (PyStr.replace "iso4217:" EmptyString currency)).

(** The rate table of the period bucket and its date. *)
Definition rates_for (ref_period : string) : gmap string Q * string :=
  if PyStr.contains "2025-12" ref_period
  then (ECB_RATES_20251231, "2025-12-31")
  else (ECB_RATES_20250630, "2025-06-30").

Definition get_fx_rate (currency ref_period : string) : Q * string :=
  let currency := normalize_currency currency in
  let '(rates, rate_date) := rates_for ref_period in
  match rates !! currency with
  | Some rate => (rate, "ECB SDW " +:+ rate_date)
  | None => (1%Q, "assumed_EUR")
  end.

(** A row of [quantscore_taxonomy.csv]. *)
Record qs_in := {
  lei : string;
  country : string;
  coverage : string;
  nums : gmap string cell;
}.

(** A row of [master_banks.csv], as far as it is read here; an empty cell
    of a text column is [None]. *)
Record bank := {
  bank_lei : string;
  bank_currency : option string;
  bank_ref_period : option string;
}.

(** A row of [merged]: the QuantScore row with the currency and the
    reference period of the first bank row of the same identifier. *)
Record merged_row := {
  qs : qs_in;
  lei_clean : string;
  currency_cell : option string;
  ref_period_cell : option string;
}.

(** The left merge on [lei_clean], after [drop_duplicates]. *)
Definition merge_row (banks : list bank) (r : qs_in) : merged_row :=
  let key := PyStr.strip (lei r) in
  match filter (fun b => PyStr.strip (bank_lei b) = key) banks with
  | b :: _ => {| qs := r; lei_clean := key;
                 currency_cell := bank_currency b;
                 ref_period_cell := bank_ref_period b |}
  | [] => {| qs := r; lei_clean := key;
             currency_cell := None; ref_period_cell := None |}
  end.

(** [str(x)] of a text cell: NaN prints as [nan]. *)
Definition str (x : option string) : string := default "nan" x.

(** [row.get(k, np.nan)] and [row.get(k, 0)] *)
Definition get (m : gmap string cell) (k : string) : cell :=
  default None (m !! k).
Definition get0 (m : gmap string cell) (k : string) : cell :=
  default (Some 0%Q) (m !! k).

(** A row of the output table; the float columns are in [out_nums]. *)
Record final_row := {
  out_lei : string;
  out_country : string;
  out_ref_period : string;
  base_currency : string;
  fx_rate_to_eur : Q;
  fx_source : string;
  out_coverage : string;
  out_nums : gmap string cell;
}.

(** [x * fx_rate if pd.notna(x) else np.nan] *)
Definition to_eur (x : cell) (fx_rate : Q) : cell :=
  if notna x then fmul x (Some fx_rate) else None.

(** The body of the conversion loop. *)
Definition convert (row : merged_row) : final_row :=
  let currency := normalize_currency (str (currency_cell row)) in
  let ref_period := str (ref_period_cell row) in
  let '(fx_rate, fx_source) := get_fx_rate currency ref_period in
  let n := nums (qs row) in
  let quant_score := get n "quant_score" in
  let quant_score_pct := get n "quant_score_pct" in
  let gca_reported := get n "grand_total_eur_m" in
  let fossil_reported := get n "fossil_total_eur_m" in
  let gca_eur_m := to_eur gca_reported fx_rate in
  let fossil_eur_m := to_eur fossil_reported fx_rate in
  {| out_lei := lei_clean row;
     out_country := country (qs row);
     out_ref_period := ref_period;
     base_currency := currency;
     fx_rate_to_eur := fx_rate;
     fx_source := fx_source;
     out_coverage := coverage (qs row);
     out_nums :=
       <["D35_2_gas_eur_m" := fmul (get0 n "D35_2_gas_eur_m") (Some fx_rate)]>
       (<["C19_petrol_eur_m" := fmul (get0 n "C19_petrol_eur_m") (Some fx_rate)]>
       (<["B6_oilgas_eur_m" := fmul (get0 n "B6_oilgas_eur_m") (Some fx_rate)]>
       (<["B5_coal_eur_m" := fmul (get0 n "B5_coal_eur_m") (Some fx_rate)]>
       (<["fossil_eur_m" := fossil_eur_m]>
       (<["gca_eur_m" := gca_eur_m]>
       (<["fossil_reported_m" := fossil_reported]>
       (<["gca_reported_m" := gca_reported]>
       (<["quant_score_pct" := quant_score_pct]>
       (<["quant_score" := quant_score]> ∅))))))))) |}.

Definition quant_score_of (r : final_row) : cell := get (out_nums r) "quant_score".

(** Descending by [quant_score]; every key is a number after [dropna]. *)
Definition before (x y : final_row) : bool :=
  match quant_score_of x, quant_score_of y with
  | Some a, Some b => Qle_bool b a
  | Some _, None => true
  | None, Some _ => false
  | None, None => true
  end.

(** Steps 3 to 8 of [main]: merge, convert, drop the rows without a
    QuantScore, sort. *)
Definition run (banks : list bank) (qs_rows : list qs_in) : list final_row :=
  let df := convert <$> (merge_row banks <$> qs_rows) in
  sort_by before (filter (fun r => notna (quant_score_of r) = true) df).

End Step2c.

(** ** Step 3: the composite index *)

Module Step3.

(** The result of a float operation that may divide by zero: NaN, a finite
    number, or an infinity ([XInf true] is minus infinity). *)
Inductive xfloat := XNaN | XFin (q : Q) | XInf (negative : bool).

(** [a / b] as numpy divides: 0/0 is NaN, x/0 is an infinity. *)
Definition xdiv (a b : cell) : xfloat :=
  match a, b with
  | Some x, Some y =>
      if Qeq_bool y 0
      then (if Qeq_bool x 0 then XNaN else XInf (Qle_bool x 0))
      else XFin (x / y)
  | _, _ => XNaN
  end.

(** [a - b] for a finite or missing [a]. *)
Definition xsub (a : cell) (b : xfloat) : xfloat :=
  match a, b with
  | Some x, XFin y => XFin (x - y)
  | Some _, XInf s => XInf (negb s)
  | _, _ => XNaN
  end.

(** Round half to even to an integer. *)
Definition rint (q : Q) : Z :=
  let f := Qfloor q in
  match (q - inject_Z f ?= 1 # 2)%Q with
  | Lt => f
  | Gt => (f + 1)%Z
  | Eq => if Z.even f then f else (f + 1)%Z
  end.

(** [.round(4)] *)
Definition round4 (q : Q) : Q := Qred (inject_Z (rint (q * 10000)) / 10000).

Definition xround4 (x : xfloat) : xfloat :=
  match x with XFin q => XFin (round4 q) | _ => x end.

(** A row of the DAS table. *)
Record das_row := {
  lei : string;
  bank_name : string;
  das_raw : cell;
  das_normalized : cell;
  scoring_status : string;
}.

(** A row of the QuantScore table, as far as [compute_dci] reads it. *)
Record qs_row := {
  qs_lei : string;
  quant_score_pct : cell;
  gca_eur_m : cell;
  base_currency : option string;
  country : option string;
}.

(** A row of the merged table. *)
Record dci_row := {
  das : das_row;
  m_quant_score_pct : cell;
  m_gca_eur_m : cell;
  m_base_currency : option string;
  m_country : option string;
  m_das_normalized : cell;
  quant_score_normalized : xfloat;
  dci : xfloat;
}.

(** [drop_duplicates("lei")]: the first row of each identifier. *)
Fixpoint drop_duplicates (l : list qs_row) : list qs_row :=
  match l with
  | [] => []
  | r :: t => r :: filter (fun r' => qs_lei r' ≠ qs_lei r) (drop_duplicates t)
  end.

(** [Series.max()]: NaN cells are skipped; NaN when nothing is left. *)
Definition fmax (acc x : cell) : cell :=
  match acc, x with
  | None, _ => x
  | _, None => acc
  | Some m, Some v => if Qle_bool v m then Some m else Some v
  end.

Definition qs_max (qs_df : list qs_row) : cell :=
  foldl fmax None (quant_score_pct <$> qs_df).

Definition joined (mx : cell) (d : das_row) (pct gca : cell)
    (ccy ctry : option string) : dci_row :=
  let qsn := xdiv pct mx in
  {| das := d; m_quant_score_pct := pct; m_gca_eur_m := gca;
     m_base_currency := ccy; m_country := ctry;
     m_das_normalized := round4 <$> das_normalized d;
     quant_score_normalized := xround4 qsn;
     dci := xround4 (xsub (das_normalized d) qsn) |}.

(** [das_df.merge(right, on="lei", how="left")] for one row of [das_df],
    with the columns computed afterwards. *)
Definition merge_row (mx : cell) (right : list qs_row) (d : das_row)
    : list dci_row :=
  match filter (fun r => qs_lei r = lei d) right with
  | [] => [joined mx d None None None None]
  | ms => (fun r => joined mx d (quant_score_pct r) (gca_eur_m r)
                      (base_currency r) (country r)) <$> ms
  end.

Definition x_ge (a b : xfloat) : bool :=
  match a, b with
  | XFin p, XFin q => Qle_bool q p
  | XInf false, _ => true
  | _, XInf true => true
  | _, _ => false
  end.

(** Descending by [dci], NaN last. *)
Definition before (x y : dci_row) : bool :=
  match dci x, dci y with
  | _, XNaN => true
  | XNaN, _ => false
  | a, b => x_ge a b
  end.

Definition compute_dci (das_df : list das_row) (qs_df : list qs_row)
    : list dci_row :=
  let right := drop_duplicates qs_df in
  let mx := qs_max qs_df in
  sort_by before (das_df ≫= merge_row mx right).

End Step3.

(** ** Step 0: the datapoint mapping table *)

Module Step0.

(** CPRS fossil fuel NAC codes, with their descriptions. *)
Definition CPRS_FOSSIL_NAC : list (string * string) :=
  [
    ("B5", "NACE 05 - Mining of coal and lignite");
    ("B6", "NACE 06 - Extraction of crude petroleum and natural gas");
    ("C19", "NACE 19 - Manufacture of coke and refined petroleum products");
    ("D35_2", "NACE 35.2 - Manufacture/distribution of gaseous fuels");
    ("G46_71", "NACE 46.71 - Wholesale of solid/liquid/gaseous fuels");
    ("G47_3", "NACE 47.3 - Retail sale of automotive fuel");
    ("H49_5", "NACE 49.5 - Transport via pipeline")
  ].

(** All NAC codes with labels. *)
Definition NAC_LABELS : list (string * string) :=
  [
    ("x12", "Total - Sectors NOT contributing highly to climate change");
    ("x13", "Total - Sectors contributing highly to climate change");
    ("x10", "Other sectors (households, public admin, education, health, etc.)");
    ("A", "Agriculture, forestry and fishing (NACE A)");
    ("B", "Mining and quarrying - TOTAL (NACE B)");
    ("B5", "Mining of coal and lignite (NACE 05)");
    ("B6", "Extraction of crude petroleum and natural gas (NACE 06)");
    ("B7", "Mining of metal ores (NACE 07)");
    ("B8", "Other mining and quarrying (NACE 08)");
    ("B9", "Mining support service activities (NACE 09)");
    ("C", "Manufacturing - TOTAL (NACE C)");
    ("C10", "Manufacture of food products (NACE 10)");
    ("C11", "Manufacture of beverages (NACE 11)");
    ("C12", "Manufacture of tobacco products (NACE 12)");
    ("C13", "Manufacture of textiles (NACE 13)");
    ("C14", "Manufacture of wearing apparel (NACE 14)");
    ("C15", "Manufacture of leather products (NACE 15)");
    ("C16", "Manufacture of wood products (NACE 16)");
    ("C17", "Manufacture of paper (NACE 17)");
    ("C18", "Printing and reproduction of recorded media (NACE 18)");
    ("C19", "Manufacture of coke and refined petroleum products (NACE 19)");
    ("C20", "Manufacture of chemicals (NACE 20)");
    ("C21", "Manufacture of pharmaceuticals (NACE 21)");
    ("C22", "Manufacture of rubber and plastics (NACE 22)");
    ("C23", "Manufacture of non-metallic mineral products (NACE 23)");
    ("C24", "Manufacture of basic metals (NACE 24)");
    ("C25", "Manufacture of fabricated metal products (NACE 25)");
    ("C26", "Manufacture of computer and electronic products (NACE 26)");
    ("C27", "Manufacture of electrical equipment (NACE 27)");
    ("C28", "Manufacture of machinery and equipment (NACE 28)");
    ("C29", "Manufacture of motor vehicles (NACE 29)");
    ("C30", "Manufacture of other transport equipment (NACE 30)");
    ("C31", "Manufacture of furniture (NACE 31)");
    ("C32", "Other manufacturing (NACE 32)");
    ("C33", "Repair and installation of machinery (NACE 33)");
    ("D", "Electricity, gas, steam and air conditioning supply - TOTAL (NACE D)");
    ("D35_1", "Electricity, gas and steam supply - subsection (NACE 35.1 group)");
    ("D35_11", "Electric power generation from renewables (NACE 35.11)");
    ("D35_2", "Manufacture of gas; distribution of gaseous fuels (NACE 35.2)");
    ("D35_3", "Steam and air conditioning supply (NACE 35.3)");
    ("E", "Water supply; sewerage, waste management (NACE E)");
    ("F", "Construction - TOTAL (NACE F)");
    ("F41", "Construction of buildings (NACE 41)");
    ("F42", "Civil engineering (NACE 42)");
    ("F43", "Specialised construction activities (NACE 43)");
    ("G", "Wholesale and retail trade - TOTAL (NACE G)");
    ("G46_71", "Wholesale of solid, liquid and gaseous fuels (NACE 46.71)");
    ("G47_3", "Retail sale of automotive fuel (NACE 47.3)");
    ("H", "Transportation and storage - TOTAL (NACE H)");
    ("H49", "Land transport and transport via pipelines (NACE 49)");
    ("H49_5", "Transport via pipeline (NACE 49.5)");
    ("H50", "Water transport (NACE 50)");
    ("H51", "Air transport (NACE 51)");
    ("H52", "Warehousing and support for transportation (NACE 52)");
    ("H53", "Postal and courier activities (NACE 53)");
    ("I", "Accommodation and food service activities (NACE I)");
    ("J", "Information and communication (NACE J)");
    ("K", "Financial and insurance activities (NACE K)");
    ("L", "Real estate activities (NACE L)");
    ("M", "Professional, scientific and technical activities (NACE M)");
    ("N", "Administrative and support service activities (NACE N)")
  ].

(** The labels of the columns of the template. *)
Definition COL_LABELS : list (string * string) :=
  [
    ("c0010", "Gross carrying amount - TOTAL");
    ("c0020", "Of which: performing");
    ("c0030", "Of which: past due > 30 days");
    ("c0040", "Of which: non-performing");
    ("c0050", "Of which: subject to impairment");
    ("c0060", "Accumulated impairment");
    ("c0070", "Net carrying amount");
    ("c0080", "Of which: fossil fuel related");
    ("c0090", "Of which: subject to transition risk");
    ("c0100", "Number of obligors");
    ("c0110", "Of which: SMEs");
    ("c0120", "Weighted average maturity");
    ("c0130", "Of which: <= 5 years");
    ("c0140", "Of which: > 5 years and <= 10 years");
    ("c0150", "Of which: > 10 years and <= 20 years");
    ("c0160", "Of which: > 20 years")
  ].

(** [d.get(k)] on one of the tables above. *)
Definition lookup (table : list (string * string)) (k : string) : option string :=
  (list_to_map table : gmap string string) !! k.

(** The longest prefix whose characters satisfy [p], and the rest. *)
Fixpoint span (p : ascii -> bool) (s : string) : string * string :=
  match s with
  | EmptyString => (EmptyString, EmptyString)
  | String c r =>
      if p c then let '(a, b) := span p r in (String c a, b)
      else (EmptyString, s)
  end.

(** A match of [r(\d+),\s*c(\d+)] at the start of [s]: groups 1 and 2.
    Each repetition is greedy and is followed by a character outside its
    class, so the longest run is the only one that can match. *)
Definition cellcode_at (s : string) : option (string * string) :=
  match s with
  | String "r" t =>
      let '(rs, t1) := span PyStr.is_digit t in
      match rs, t1 with
      | String _ _, String "," t2 =>
          let '(_, t3) := span PyStr.is_space t2 in
          match t3 with
          | String "c" t4 =>
              let '(cs, _) := span PyStr.is_digit t4 in
              match cs with
              | String _ _ => Some (rs, cs)
              | EmptyString => None
              end
          | _ => None
          end
      | _, _ => None
      end
  | _ => None
  end.

(** [re.search]: the leftmost match. *)
Fixpoint cellcode_search (s : string) : option (string * string) :=
  match cellcode_at s with
  | Some m => Some m
  | None =>
      match s with
      | EmptyString => None
      | String _ r => cellcode_search r
      end
  end.

Fixpoint has_colon (s : string) : bool :=
  match s with
  | EmptyString => false
  | String c r => Ascii.eqb c ":" || has_colon r
  end.

(** [v.split(":")[-1]]: what follows the last colon, or all of [v]. *)
Fixpoint last_segment (v : string) : string :=
  match v with
  | EmptyString => EmptyString
  | String c r =>
      if has_colon r then last_segment r
      else if Ascii.eqb c ":" then r else v
  end.

(** The value of one datapoint in [propertyGroups], as far as it is read:
    the cell code of its documentation (the empty string when there is
    none) and its dimensions in the order of the JSON object. *)
Record info := {
  cellcode : string;
  dimensions : list (string * string);
}.

(** The loop over the dimensions: the first key that contains [NAC]. *)
Fixpoint nac_of_dims (dims : list (string * string)) : string :=
  match dims with
  | [] => EmptyString
  | (k, v) :: rest =>
      if PyStr.contains "NAC" k then last_segment v else nac_of_dims rest
  end.

(** A row of the mapping table. *)
Record mapping_row := {
  datapoint : string;
  row_code : string;
  col_code : string;
  nac_code : string;
  nac_label : string;
  col_label : string;
  is_cprs_fossil : bool;
  is_grand_total : bool;
  row_cellcode : string;
}.

(** The body of the loop over the datapoints; [None] is [continue]. *)
Definition entry_row (dp : string) (i : info) : option mapping_row :=
  match cellcode_search (cellcode i) with
  | None => None
  | Some (g1, g2) =>
      let row_code := "r" +:+ g1 in
      let col_code := "c" +:+ g2 in
      let nac := nac_of_dims (dimensions i) in
      Some {| datapoint := dp;
              row_code := row_code;
              col_code := col_code;
              nac_code := nac;
              nac_label := default ("Unknown NAC: " +:+ nac) (lookup NAC_LABELS nac);
              col_label := default col_code (lookup COL_LABELS col_code);
              is_cprs_fossil := bool_decide (is_Some (lookup CPRS_FOSSIL_NAC nac));
              is_grand_total := String.eqb row_code "r0560";
              row_cellcode := cellcode i |}
  end.

(** [build_mapping], from the parsed [propertyGroups] on. *)
Definition build_mapping (props : list (string * info)) : list mapping_row :=
  omap (fun e => entry_row e.1 e.2) props.

End Step0.

(** ** Step 2b: the datapoints selected from the mapping table *)

Module Step2bSelect.

(** CPRS fossil NAC codes. *)
Definition CPRS_NAC : list string :=
  ["B5"; "B6"; "C19"; "D35_2"; "G46_71"; "G47_3"; "H49_5"].

(** [fossil_dps]: the fossil rows of column [c0010]. *)
Definition fossil_dps (mapping : list Step0.mapping_row) : list Step2b.fossil_dp :=
  (fun r => {| Step2b.datapoint := Step0.datapoint r;
               Step2b.nac_code := Step0.nac_code r |})
  <$> filter (fun r => Step0.is_cprs_fossil r = true /\ Step0.col_code r = "c0010") mapping.

(** [total_dps]: the grand-total rows of column [c0010]. *)
Definition total_dps (mapping : list Step0.mapping_row) : list string :=
  Step0.datapoint
  <$> filter (fun r => Step0.is_grand_total r = true /\ Step0.col_code r = "c0010") mapping.

End Step2bSelect.

(** ** Step 3: the scores of one bank *)

Module Scoring.

(** A value of the JSON object returned by the scoring service. *)
Inductive json :=
| JInt (z : Z)
| JFloat (q : Q)
| JStr (s : string)
| JBool (b : bool)
| JNull
| JOther.

(** [int(v)]: a float is truncated towards zero, a string is parsed, a
    boolean counts as 0 or 1; [None] is the exception raised otherwise. *)
Definition int_of (v : json) : option Z :=
  match v with
  | JInt z => Some z
  | JFloat q => Some (Z.quot (Qnum q) (Zpos (Qden q)))
  | JStr s => PyStr.int s
  | JBool b => Some (if b then 1 else 0)%Z
  | JNull => None
  | JOther => None
  end.

Definition required : list string :=
  ["specificity"; "completeness"; "forward_looking"; "consistency"; "comparability"].

(** [max(0, min(2, x))] *)
Definition clamp (x : Z) : Z := Z.max 0 (Z.min 2 x).

(** The validation loop: [None] when a key is missing or a value is not
    convertible (either raises, and both land in an [except] clause). *)
Fixpoint validate (scores : gmap string json) (keys : list string)
    : option (gmap string json) :=
  match keys with
  | [] => Some scores
  | key :: rest =>
      match scores !! key with
      | None => None
      | Some v =>
          match int_of v with
          | None => None
          | Some z => validate (<[key := JInt (clamp z)]> scores) rest
          end
      end
  end.

(** [scores[k]] after validation. *)
Definition score_at (scores : gmap string json) (k : string) : Z :=
  match scores !! k with
  | Some (JInt z) => z
  | _ => 0%Z
  end.

(** The result dict; the free text of [rationale] is left out. *)
Record result := {
  lei : string;
  bank_name : string;
  specificity : option Z;
  completeness : option Z;
  forward_looking : option Z;
  consistency : option Z;
  comparability : option Z;
  das_raw : option Z;
  das_normalized : cell;
  scoring_status : string;
}.

(** [_failed_score] *)
Definition failed_score (l nm : string) : result :=
  {| lei := l; bank_name := nm;
     specificity := None; completeness := None; forward_looking := None;
     consistency := None; comparability := None;
     das_raw := None; das_normalized := None;
     scoring_status := "failed" |}.

(** [score_bank], from the reply of the service on: [None] is a failed
    call or a reply that is not a JSON object. *)
Definition score_bank (l nm : string) (reply : option (gmap string json)) : result :=
  match reply with
  | None => failed_score l nm
  | Some scores =>
      match validate scores required with
      | None => failed_score l nm
      | Some scores =>
          let das_raw := foldl Z.add 0%Z (score_at scores <$> required) in
          {| lei := l; bank_name := nm;
             specificity := Some (score_at scores "specificity");
             completeness := Some (score_at scores "completeness");
             forward_looking := Some (score_at scores "forward_looking");
             consistency := Some (score_at scores "consistency");
             comparability := Some (score_at scores "comparability");
             das_raw := Some das_raw;
             das_normalized := Some (inject_Z das_raw / 10)%Q;
             scoring_status := "ok" |}
      end
  end.

(** The row of the DAS table for a result. *)
Definition das_row_of (r : result) : Step3.das_row :=
  {| Step3.lei := lei r; Step3.bank_name := bank_name r;
     Step3.das_raw := inject_Z <$> das_raw r;
     Step3.das_normalized := das_normalized r;
     Step3.scoring_status := scoring_status r |}.

End Scoring.

(** ** Step 3: the banks that are scored *)

Module TextSelection.

(** A row of [master_banks_fixed.csv], as far as it is read here. *)
Record bank := {
  lei : string;
  qual_text : option string;
  qual_text_chars : cell;
}.

(** [banks[text_col].notna() & (banks.qual_text_chars > 100)] *)
Definition qualifies (b : bank) : bool :=
  match qual_text b, qual_text_chars b with
  | Some _, Some n => Qpos_b (n - 100)
  | _, _ => false
  end.

(** Descending by [qual_text_chars]; NaN last. *)
Definition before (x y : bank) : bool :=
  match qual_text_chars x, qual_text_chars y with
  | Some a, Some b => Qle_bool b a
  | _, None => true
  | None, Some _ => false
  end.

(** [drop_duplicates("lei")]: the first row of each identifier. *)
Fixpoint drop_duplicates (l : list bank) : list bank :=
  match l with
  | [] => []
  | r :: t => r :: filter (fun r' => lei r' ≠ lei r) (drop_duplicates t)
  end.

(** Step 2 of [main]. *)
Definition banks_with_text (banks : list bank) : list bank :=
  drop_duplicates (sort_by before (filter (fun b => qualifies b = true) banks)).

End TextSelection.

(** ** Vocabulary of the statements *)

(** Equality of floats up to the representation of the rational. *)
Definition cell_eq (a b : cell) : Prop :=
  match a, b with
  | Some x, Some y => (x == y)%Q
  | None, None => True
  | _, _ => False
  end.

(** The value a strictly positive present cell contributes to a sum of
    positive values: itself; any other cell contributes nothing. *)
Definition positive_part (x : cell) : Q :=
  match x with
  | Some q => if Qpos_b q then q else 0%Q
  | None => 0%Q
  end.

(** The value the parser stores under [<label>_m_local] for a fossil
    datapoint: the raw value times the scale factor when it is present and
    positive, 0 otherwise. *)
Definition component_out (sf : Q) (dp_vals : gmap string cell) (dp : string) : Q :=
  match Step1b.get dp_vals dp with
  | Some raw => if Qpos_b raw then (raw * sf)%Q else 0%Q
  | None => 0%Q
  end.

(** The strictly positive present values of a row at the given columns. *)
Definition positive_values (row : gmap string cell) (cols : list string) : list Q :=
  filter (fun q => Qpos_b q = true) (omap (fun c => default None (row !! c)) cols).

(** The sum of the strictly positive present values of the four CPRS
    datapoints of the parser. *)
Definition cprs_positive_sum (dp_vals : gmap string cell) : Q :=
  foldr (fun item acc => (positive_part (Step1b.get dp_vals item.1) + acc)%Q)
        0%Q Step1b.CPRS_DPS.

(** A bank folder whose name carries an identifier and which has both files. *)
Definition complete_folder (nm : string) (params : gmap string string)
    (rows : list (string * cell)) : Step1b.folder :=
  {| Step1b.name := nm;
     Step1b.parameters_csv := Some params;
     Step1b.k_41_00_csv := Some rows |}.



(** The text of the [coverage] column. *)
Definition coverage_name (c : Step2b.coverage) : string :=
  match c with
  | Step2b.full => "full"
  | Step2b.zero_fossil => "zero_fossil"
  | Step2b.no_data => "no_data"
  end.

(** The row of [quantscore_taxonomy.csv] that step 2c reads for a row
    written by step 2b. *)
Definition as_qs_in (r : Step2b.qs_row) : Step2c.qs_in :=
  {| Step2c.lei := Step2b.out_lei r;
     Step2c.country := Step2b.out_country r;
     Step2c.coverage := coverage_name (Step2b.out_coverage r);
     Step2c.nums := Step2b.nums r |}.

(** The sector columns that the conversion loop reads and writes. *)
Definition converted_sector_columns : list string :=
  ["B5_coal_eur_m"; "B6_oilgas_eur_m"; "C19_petrol_eur_m"; "D35_2_gas_eur_m"].


(** The exposure of an entity as the merge sees it: the first row of the
    QuantScore table with that identifier. *)
Definition first_pct (qs_df : list Step3.qs_row) (l : string) : cell :=
  match filter (fun r => Step3.qs_lei r = l) qs_df with
  | r :: _ => Step3.quant_score_pct r
  | [] => None
  end.

(** A non-empty string of decimal digits. *)
Definition digits (s : string) : Prop :=
  s <> EmptyString /\ Step1b.all_chars PyStr.is_digit s = true.

(** A string of whitespace. *)
Definition blanks (s : string) : Prop := Step1b.all_chars PyStr.is_space s = true.



(** ** Fixtures

    The end-to-end scenarios of the specification and a few more inputs. *)

(** The grand total in millions that the parser stores for a filing that
    declares [exponent] and reports [raw] at the grand-total datapoint. *)
Definition normalized_total (exponent : string) (raw : Q) : option cell :=
  Step1b.floats
    (Step1b.parse_bank
       (complete_folder "213800A1O379I6DMCU10.CON_MT_PILLAR3"
          {[ "decimalsMonetary" := exponent ]}
          [("dp471828", Some raw)]))
  !! "total_gca_m_local".

(** A mapping table with the four sectors of the parser and the wholesale
    of fuels, and a data table that has all of their columns. *)
Definition fixture_fossil_dps : list Step2b.fossil_dp :=
  [ {| Step2b.datapoint := "dp471326"; Step2b.nac_code := "B5" |};
    {| Step2b.datapoint := "dp471332"; Step2b.nac_code := "B6" |};
    {| Step2b.datapoint := "dp471410"; Step2b.nac_code := "C19" |};
    {| Step2b.datapoint := "dp471566"; Step2b.nac_code := "D35_2" |};
    {| Step2b.datapoint := "dp471650"; Step2b.nac_code := "G46_71" |} ].

Definition fixture_columns : list string :=
  ["dp471828"; "dp471326"; "dp471332"; "dp471410"; "dp471566"; "dp471650"].

Definition fixture_cols : list string :=
  Step2b.fossil_cols fixture_fossil_dps fixture_columns.

Definition fixture_total_col : option string :=
  Step2b.total_col ["dp471828"] fixture_columns.

Definition score_fixture (row : Step2b.t1_row) : Step2b.qs_row :=
  Step2b.score_row fixture_fossil_dps fixture_cols fixture_total_col [] row.

(** Entity A: grand total 1,000,000,000 and one fossil component 50,000,000. *)
Definition entity_A : Step2b.t1_row :=
  {| Step2b.lei := "AAAAAAAAAAAAAAAAAAAA";
     Step2b.cells := {[ "dp471828" := Some 1000000000%Q;
                        "dp471326" := Some 50000000%Q ]} |}.

(** Entity B: grand total 500,000,000 and no fossil datapoint. *)
Definition entity_B : Step2b.t1_row :=
  {| Step2b.lei := "BBBBBBBBBBBBBBBBBBBB";
     Step2b.cells := {[ "dp471828" := Some 500000000%Q ]} |}.

(** Entity C: no grand total. *)
Definition entity_C : Step2b.t1_row :=
  {| Step2b.lei := "CCCCCCCCCCCCCCCCCCCC";
     Step2b.cells := {[ "dp471828" := None;
                        "dp471326" := Some 50000000%Q ]} |}.




(** The bank of that row reports in zloty at mid-year. *)
Definition bank_pln : Step2c.bank :=
  {| Step2c.bank_lei := "5493000LKS7B3UTF7H35";
     Step2c.bank_currency := Some "iso4217:PLN";
     Step2c.bank_ref_period := Some "2025-06-30" |}.


(** Bank A with a DAS of 8 out of 10. *)
Definition das_A : Step3.das_row :=
  {| Step3.lei := "AAAAAAAAAAAAAAAAAAAA"; Step3.bank_name := "Bank A";
     Step3.das_raw := Some 8%Q; Step3.das_normalized := Some (8 / 10)%Q;
     Step3.scoring_status := "ok" |}.

Definition qs_of (l : string) (pct : cell) : Step3.qs_row :=
  {| Step3.qs_lei := l; Step3.quant_score_pct := pct;
     Step3.gca_eur_m := Some 1000%Q; Step3.base_currency := Some "EUR";
     Step3.country := Some "MT" |}.


(** A sample in which bank A is the most exposed bank. *)
Definition sample_A_max : list Step3.qs_row :=
  [ qs_of "BBBBBBBBBBBBBBBBBBBB" (Some 2%Q); qs_of "AAAAAAAAAAAAAAAAAAAA" (Some 5%Q) ].

(** A sample without bank A. *)
Definition sample_without_A : list Step3.qs_row :=
  [ qs_of "BBBBBBBBBBBBBBBBBBBB" (Some 2%Q) ].

(** A sample in which bank A has two exposure rows, the larger one second. *)
Definition sample_A_twice : list Step3.qs_row :=
  [ qs_of "AAAAAAAAAAAAAAAAAAAA" (Some 1%Q); qs_of "BBBBBBBBBBBBBBBBBBBB" (Some 2%Q);
    qs_of "AAAAAAAAAAAAAAAAAAAA" (Some 5%Q) ].

(** Three datapoints of the taxonomy: the grand total, the coal row and an
    entry without a cell code. *)
Definition fixture_props : list (string * Step0.info) :=
  [ ("dp471828", {| Step0.cellcode := "{K_41.00, r0560, c0010}";
                    Step0.dimensions := [("eba_dim:BAS", "eba_BA:x6")] |});
    ("dp471326", {| Step0.cellcode := "{K_41.00, r0030, c0010}";
                    Step0.dimensions := [("eba_dim:BAS", "eba_BA:x6");
                                         ("eba_dim:NAC", "eba_NC:B5")] |});
    ("dp000000", {| Step0.cellcode := EmptyString; Step0.dimensions := [] |}) ].

(** * Properties *)

(** ** Floats and strings *)

Lemma Qpos_b_true q : Qpos_b q = true <-> (0 < q)%Q.
Proof.
  unfold Qpos_b. rewrite negb_true_iff. split; intros H.
  - destruct (Qlt_le_dec 0 q) as [Hlt|Hle]; [exact Hlt|].
    apply Qle_bool_iff in Hle. congruence.
  - destruct (Qle_bool q 0) eqn:E; [|reflexivity].
    apply Qle_bool_iff in E. lra.
Qed.

Lemma Qpos_b_false q : Qpos_b q = false <-> (q <= 0)%Q.
Proof.
  unfold Qpos_b. rewrite negb_false_iff. apply Qle_bool_iff.
Qed.

Example upper_pln : PyStr.upper "pln" = "PLN".
Proof. reflexivity. Qed.

Example strip_spaces : PyStr.strip "  eur " = "eur".
Proof. reflexivity. Qed.

Example replace_prefix : PyStr.replace "iso4217:" EmptyString "iso4217:SEK" = "SEK".
Proof. reflexivity. Qed.

Example contains_period : PyStr.contains "2025-12" "2025-12-31" = true.
Proof. reflexivity. Qed.

Example int_minus6 : PyStr.int "-6" = Some (-6)%Z.
Proof. reflexivity. Qed.

Example int_bad : PyStr.int "nan" = None.
Proof. reflexivity. Qed.

Example replace_every_occurrence :
  PyStr.replace "iso4217:" EmptyString "iso4217:iso4217:eur" = "eur".
Proof. reflexivity. Qed.

Example replace_non_overlapping : PyStr.replace "aa" "b" "aaa" = "ba".
Proof. reflexivity. Qed.

Example strip_keeps_inner_space : PyStr.strip " a b  " = "a b".
Proof. reflexivity. Qed.

Example int_underscore : PyStr.int " +1_0 " = Some 10%Z.
Proof. reflexivity. Qed.

Example lei_of_folder :
  Step1b.lei_match "213800A1O379I6DMCU10.CON_MT_PILLAR3" = Some "213800A1O379I6DMCU10".
Proof. reflexivity. Qed.

Example lei_of_output_folder : Step1b.lei_match "output" = None.
Proof. reflexivity. Qed.

Example country_of_folder :
  Step1b.country_search "213800A1O379I6DMCU10.CON_MT_PILLAR3" = Some ("CON", "MT").
Proof. reflexivity. Qed.


(** ** The parser: the loop over the fossil datapoints *)

Section ParserLoop.
Variables (sf : Q) (dp_vals : gmap string cell).

Lemma fossil_step_out st item :
  Step1b.out (Step1b.fossil_step sf dp_vals st item)
  = <[item.2 +:+ "_m_local" := Some (component_out sf dp_vals item.1)]> (Step1b.out st).
Proof.
  destruct item as [dp label]. unfold Step1b.fossil_step, component_out. simpl.
  destruct (Step1b.get dp_vals dp) as [raw|]; [destruct (Qpos_b raw)|]; reflexivity.
Qed.

Lemma fossil_step_total st item :
  (Step1b.fossil_total (Step1b.fossil_step sf dp_vals st item)
   == Step1b.fossil_total st + positive_part (Step1b.get dp_vals item.1) * sf)%Q.
Proof.
  destruct item as [dp label]. unfold Step1b.fossil_step, positive_part. simpl.
  destruct (Step1b.get dp_vals dp) as [raw|]; [destruct (Qpos_b raw)|]; simpl; lra.
Qed.

Lemma fossil_loop_out items st :
  Step1b.out (foldl (Step1b.fossil_step sf dp_vals) st items)
  = foldl (fun m item =>
             <[item.2 +:+ "_m_local" := Some (component_out sf dp_vals item.1)]> m)
      (Step1b.out st) items.
Proof.
  revert st. induction items as [|item items IH]; intros st; [reflexivity|].
  simpl. rewrite IH, fossil_step_out. reflexivity.
Qed.

Lemma fossil_loop_total items st :
  (Step1b.fossil_total (foldl (Step1b.fossil_step sf dp_vals) st items)
   == Step1b.fossil_total st
      + foldr (fun item acc => positive_part (Step1b.get dp_vals item.1) * sf + acc)
          0 items)%Q.
Proof.
  revert st. induction items as [|item items IH]; intros st; simpl; [lra|].
  rewrite IH, fossil_step_total. lra.
Qed.
End ParserLoop.

(** ** The parser: what the Template 1 block stores *)

Lemma parse_bank_complete nm params rows l :
  Step1b.lei_match nm = Some l ->
  Step1b.floats (Step1b.parse_bank (complete_folder nm params rows))
  = Step1b.template1 (1 / 1000000) (Step1b.dict_of_rows rows) ∅.
Proof.
  intros Hl. unfold Step1b.parse_bank, complete_folder. simpl. rewrite Hl. reflexivity.
Qed.


Lemma template1_component sf dv dp label :
  (dp, label) ∈ Step1b.CPRS_DPS ->
  Step1b.template1 sf dv ∅ !! (label +:+ "_m_local")
  = Some (Some (component_out sf dv dp)).
Proof.
  intros Hin. unfold Step1b.template1.
  set (total := if notna _ then _ else _).
  set (st := foldl _ _ _).
  assert (Hout : Step1b.out st !! (label +:+ "_m_local")
                 = Some (Some (component_out sf dv dp))).
  { subst st. rewrite fossil_loop_out.
    cbn [foldl Step1b.CPRS_DPS fst snd Step1b.out].
    unfold Step1b.CPRS_DPS in Hin.
    repeat (apply elem_of_cons in Hin as [Hin|Hin];
            [injection Hin as -> ->; cbn [String.append];
             rewrite ?lookup_insert_ne by done; apply lookup_insert_eq|]).
    by apply elem_of_nil in Hin. }
  assert (Hk : label +:+ "_m_local" ≠ "quant_score_pct"
               ∧ label +:+ "_m_local" ≠ "quant_score"
               ∧ label +:+ "_m_local" ≠ "fossil_total_m_local").
  { unfold Step1b.CPRS_DPS in Hin.
    repeat (apply elem_of_cons in Hin as [Hin|Hin];
            [injection Hin as -> ->; cbn [String.append]; done|]).
    by apply elem_of_nil in Hin. }
  destruct Hk as (? & ? & ?).
  destruct (gt0 total); rewrite !lookup_insert_ne by done; exact Hout.
Qed.

Lemma fossil_step_found_mono sf dv st item :
  Step1b.fossil_found st = true ->
  Step1b.fossil_found (Step1b.fossil_step sf dv st item) = true.
Proof.
  intros H. destruct item as [dp label]. unfold Step1b.fossil_step.
  destruct (Step1b.get dv dp) as [raw|]; [destruct (Qpos_b raw)|]; simpl; auto.
Qed.

Lemma fossil_loop_found_mono sf dv items st :
  Step1b.fossil_found st = true ->
  Step1b.fossil_found (foldl (Step1b.fossil_step sf dv) st items) = true.
Proof.
  revert st. induction items as [|item items IH]; intros st H; simpl; [exact H|].
  apply IH, fossil_step_found_mono, H.
Qed.

(** While nothing has been found, the running total has not moved. *)
Lemma fossil_loop_not_found sf dv items st :
  Step1b.fossil_found (foldl (Step1b.fossil_step sf dv) st items) = false ->
  Step1b.fossil_total (foldl (Step1b.fossil_step sf dv) st items) = Step1b.fossil_total st.
Proof.
  revert st. induction items as [|item items IH]; intros st H; simpl in *; [reflexivity|].
  rewrite (IH _ H).
  destruct item as [dp label]. unfold Step1b.fossil_step.
  destruct (Step1b.get dv dp) as [raw|] eqn:Hg; [destruct (Qpos_b raw) eqn:Hp|]; simpl; try reflexivity.
  exfalso. rewrite fossil_loop_found_mono in H; [discriminate|].
  unfold Step1b.fossil_step. rewrite Hg, Hp. reflexivity.
Qed.

Lemma component_out_positive_part sf dv dp :
  (component_out sf dv dp == positive_part (Step1b.get dv dp) * sf)%Q.
Proof.
  unfold component_out, positive_part.
  destruct (Step1b.get dv dp) as [raw|]; [destruct (Qpos_b raw)|]; lra.
Qed.

Lemma written_sum sf dv (items : list (string * string)) :
  (foldr (fun item acc => positive_part (Step1b.get dv item.1) * sf + acc) 0 items
   == foldr (fun item acc => positive_part (Step1b.get dv item.1) + acc) 0 items * sf)%Q.
Proof.
  induction items as [|item items IH]; simpl; [lra|]. rewrite IH. lra.
Qed.

(** The running total at the end of the loop. *)
Lemma template1_loop_total sf dv fl :
  (Step1b.fossil_total
     (foldl (Step1b.fossil_step sf dv)
        {| Step1b.out := fl; Step1b.fossil_total := 0; Step1b.fossil_found := false |}
        Step1b.CPRS_DPS)
   == cprs_positive_sum dv * sf)%Q.
Proof.
  rewrite fossil_loop_total. cbn [Step1b.fossil_total].
  rewrite written_sum. unfold cprs_positive_sum. lra.
Qed.

Lemma template1_fossil_total sf dv :
  exists s, Step1b.template1 sf dv ∅ !! "fossil_total_m_local" = Some (Some s)
            /\ (s == cprs_positive_sum dv * sf)%Q.
Proof.
  unfold Step1b.template1.
  set (total := if notna _ then _ else _).
  set (st := foldl _ _ _).
  exists (if Step1b.fossil_found st then Step1b.fossil_total st else 0%Q). split.
  - destruct (gt0 total); rewrite !lookup_insert_ne by done; apply lookup_insert_eq.
  - destruct (Step1b.fossil_found st) eqn:Hf; subst st.
    + apply template1_loop_total.
    + rewrite <- (template1_loop_total sf dv (<["total_gca_m_local" := total]> ∅)).
      rewrite (fossil_loop_not_found _ _ _ _ Hf). reflexivity.
Qed.


(** ** Claims about the parser *)



(** The five exponent variants documented in the parser, with their fixture
    values: the result is the raw value over 10^6 each time. *)
Example unit_normalizer_fixtures :
  normalized_total "-6" 906142873 = Some (Some (906142873 # 1000000)%Q)
  /\ normalized_total "-3" 26717859000 = Some (Some (26717859000 # 1000000)%Q)
  /\ normalized_total "0" 34213674000 = Some (Some (34213674000 # 1000000)%Q)
  /\ normalized_total "2" 108798072832 = Some (Some (108798072832 # 1000000)%Q)
  /\ normalized_total "4" 8213877442 = Some (Some (8213877442 # 1000000)%Q).
Proof. vm_compute. repeat split. Qed.




(** ** The taxonomy calculator: the scan of the fossil columns *)

Lemma fossil_scan_from fd row cols acc fb :
  (foldl (Step2b.fossil_step fd row) (acc, fb) cols).1
  = (acc ++ positive_values row cols)%list.
Proof.
  revert acc fb. induction cols as [|c cols IH]; intros acc fb.
  - simpl. unfold positive_values. simpl. by rewrite app_nil_r.
  - simpl. unfold Step2b.fossil_step at 2. unfold Step2b.get.
    unfold positive_values. simpl.
    destruct (row !! c) as [[v|]|]; simpl.
    + destruct (Qpos_b v) eqn:Hp.
      * rewrite filter_cons_True by exact Hp. rewrite IH.
        unfold positive_values. by rewrite <- app_assoc.
      * rewrite filter_cons_False by congruence. apply IH.
    + apply IH.
    + apply IH.
Qed.

(** The values that are summed are exactly the strictly positive present
    cells, in column order. *)
Lemma fossil_scan_vals fd cols row :
  (Step2b.fossil_scan fd cols row).1 = positive_values row cols.
Proof. unfold Step2b.fossil_scan. apply fossil_scan_from. Qed.


Lemma positive_values_nil row cols :
  positive_values row cols = []
  <-> (forall c v, c ∈ cols -> Step2b.get row c = Some v -> (v <= 0)%Q).
Proof.
  unfold positive_values, Step2b.get. induction cols as [|c cols IH]; simpl.
  - split; [|reflexivity]. intros _ c v Hc. by apply elem_of_nil in Hc.
  - destruct (default None (row !! c)) as [v|] eqn:Hv; simpl.
    + destruct (Qpos_b v) eqn:Hp.
      * rewrite filter_cons_True by exact Hp. split; [discriminate|].
        intros H. specialize (H c v (list_elem_of_here _ _) Hv).
        apply Qpos_b_false in H. congruence.
      * rewrite filter_cons_False by congruence. rewrite IH. split.
        -- intros H c' v' Hc'. apply elem_of_cons in Hc' as [->|Hc'].
           ++ rewrite Hv. intros [= <-]. by apply Qpos_b_false.
           ++ by apply H.
        -- intros H c' v' Hc'. apply H. by apply list_elem_of_further.
    + rewrite IH. split.
      * intros H c' v' Hc'. apply elem_of_cons in Hc' as [->|Hc'].
        -- rewrite Hv. discriminate.
        -- by apply H.
      * intros H c' v' Hc'. apply H. by apply list_elem_of_further.
Qed.

Lemma positive_values_found row cols c v :
  c ∈ cols -> Step2b.get row c = Some v -> (0 < v)%Q ->
  positive_values row cols <> [].
Proof.
  intros Hc Hv Hpos Hnil. rewrite positive_values_nil in Hnil.
  specialize (Hnil c v Hc Hv). lra.
Qed.




(** ** The taxonomy calculator: the output row *)

Lemma score_row_core fd cols tc banks row :
  let gt := Step2b.grand_total_of tc banks row in
  let q := Step2b.quantscore
             (Step2b.fossil_total_of (positive_values (Step2b.cells row) cols)) gt in
  let r := Step2b.score_row fd cols tc banks row in
  Step2b.out_coverage r = q.2
  /\ Step2b.nums r !! "quant_score" = Some q.1.1
  /\ Step2b.nums r !! "quant_score_pct"
     = Some (if notna q.1.1 then fmul q.1.1 (Some 100%Q) else None)
  /\ Step2b.nums r !! "fossil_total_eur_m" = Some (Step2b.per_million q.1.2)
  /\ Step2b.nums r !! "grand_total_eur_m" = Some (Step2b.per_million gt).
Proof.
  intros gt q r. subst r. unfold Step2b.score_row.
  pose proof (fossil_scan_vals fd cols (Step2b.cells row)) as Hv.
  destruct (Step2b.fossil_scan fd cols (Step2b.cells row)) as [fv fb].
  simpl in Hv. subst fv. fold gt. fold q.
  destruct q as [[qs ft] cov]. cbn [fst snd Step2b.out_coverage Step2b.nums].
  cbn [foldl Step2b.sector_columns fst snd].
  repeat split; rewrite ?lookup_insert_ne by done; try apply lookup_insert_eq.
Qed.

(** ** The three-way branch *)

Lemma quantscore_full fv g :
  fv <> [] -> (0 < g)%Q ->
  Step2b.quantscore (Step2b.fossil_total_of fv) (Some g)
  = (Some (Step2b.sum fv / g)%Q, Some (Step2b.sum fv), Step2b.full).
Proof.
  intros Hne Hg. apply Qpos_b_true in Hg.
  unfold Step2b.quantscore, Step2b.fossil_total_of.
  destruct fv; [congruence|]. simpl. rewrite Hg. reflexivity.
Qed.

Lemma quantscore_zero g :
  (0 < g)%Q ->
  Step2b.quantscore (Step2b.fossil_total_of []) (Some g)
  = (Some 0%Q, Some 0%Q, Step2b.zero_fossil).
Proof.
  intros Hg. apply Qpos_b_true in Hg.
  unfold Step2b.quantscore. simpl. rewrite Hg. reflexivity.
Qed.

Lemma quantscore_no_data ft gt :
  gt0 gt = false -> Step2b.quantscore ft gt = (None, ft, Step2b.no_data).
Proof.
  intros Hg. unfold Step2b.quantscore. rewrite Hg.
  rewrite !andb_false_r. reflexivity.
Qed.

Lemma gt0_false gt :
  gt = None \/ (exists g, gt = Some g /\ (g <= 0)%Q) -> gt0 gt = false.
Proof.
  intros [->|(g & -> & Hle)]; [reflexivity|]. by apply Qpos_b_false.
Qed.

(** ** Claims about the exposure ratio *)

(** C2. The three outcomes of the exposure computation: with a grand total
    that is present and positive, a found positive fossil component gives
    coverage [full] and the ratio fossil_total / grand_total; no such
    component gives fossil_total 0, ratio 0 and coverage [zero_fossil]; a
    grand total that is absent or not positive gives [no_data] and no
    ratio. *)
Theorem C2_three_coverage_outcomes
    (fd : list Step2b.fossil_dp) (cols : list string) (tc : option string)
    (banks : list Step2b.bank) (row : Step2b.t1_row) :
  let r := Step2b.score_row fd cols tc banks row in
  let grand_total := Step2b.grand_total_of tc banks row in
  let fossil_total := Step2b.sum (positive_values (Step2b.cells row) cols) in
  (forall g, grand_total = Some g -> (0 < g)%Q ->
     (exists c v, c ∈ cols /\ Step2b.get (Step2b.cells row) c = Some v /\ (0 < v)%Q) ->
     Step2b.out_coverage r = Step2b.full
     /\ Step2b.nums r !! "quant_score" = Some (Some (fossil_total / g)%Q)
     /\ Step2b.nums r !! "fossil_total_eur_m" = Some (Some (fossil_total / 1000000)%Q)
     /\ Step2b.nums r !! "grand_total_eur_m" = Some (Some (g / 1000000)%Q))
  /\ (forall g, grand_total = Some g -> (0 < g)%Q ->
     (forall c v, c ∈ cols -> Step2b.get (Step2b.cells row) c = Some v -> (v <= 0)%Q) ->
     Step2b.out_coverage r = Step2b.zero_fossil
     /\ Step2b.nums r !! "quant_score" = Some (Some 0%Q)
     /\ Step2b.nums r !! "fossil_total_eur_m" = Some (Some (0 / 1000000)%Q))
  /\ (grand_total = None \/ (exists g, grand_total = Some g /\ (g <= 0)%Q) ->
     Step2b.out_coverage r = Step2b.no_data
     /\ Step2b.nums r !! "quant_score" = Some None
     /\ Step2b.nums r !! "quant_score_pct" = Some None).
Proof.
  intros r grand_total fossil_total.
  destruct (score_row_core fd cols tc banks row) as (Hc & Hq & Hp & Hf & Hg).
  fold r grand_total in Hc, Hq, Hp, Hf, Hg.
  rewrite Hc, Hq, Hp, Hf, Hg. clear Hc Hq Hp Hf Hg.
  split; [|split].
  - intros g Hgt Hpos (c & v & Hin & Hv & Hvpos).
    rewrite Hgt, quantscore_full by eauto using positive_values_found.
    repeat split.
  - intros g Hgt Hpos Hnone. apply positive_values_nil in Hnone.
    rewrite Hgt, Hnone, quantscore_zero by done.
    repeat split.
  - intros Habs. rewrite quantscore_no_data by auto using gt0_false.
    repeat split.
Qed.

(** The three end-to-end scenarios of the specification: entity A is [full]
    with ratio 0.05, entity B is [zero_fossil] with ratio 0, entity C is
    [no_data] without a ratio. *)
Lemma C2_witness :
  (Step2b.out_coverage (score_fixture entity_A) = Step2b.full
   /\ Step2b.nums (score_fixture entity_A) !! "quant_score"
      = Some (Some (Step2b.sum [50000000] / 1000000000)%Q))
  /\ (Step2b.out_coverage (score_fixture entity_B) = Step2b.zero_fossil
      /\ Step2b.nums (score_fixture entity_B) !! "quant_score" = Some (Some 0%Q))
  /\ (Step2b.out_coverage (score_fixture entity_C) = Step2b.no_data
      /\ Step2b.nums (score_fixture entity_C) !! "quant_score" = Some None).
Proof.
  split; [|split].
  - destruct (C2_three_coverage_outcomes fixture_fossil_dps fixture_cols
                fixture_total_col [] entity_A) as (Hfull & _ & _).
    destruct (Hfull 1000000000%Q) as (Hc & Hq & _).
    + reflexivity.
    + reflexivity.
    + exists "dp471326", 50000000%Q. split; [|split].
      * vm_compute. repeat constructor.
      * reflexivity.
      * reflexivity.
    + split; [exact Hc|exact Hq].
  - destruct (C2_three_coverage_outcomes fixture_fossil_dps fixture_cols
                fixture_total_col [] entity_B) as (_ & Hzero & _).
    destruct (Hzero 500000000%Q) as (Hc & Hq & _).
    + reflexivity.
    + reflexivity.
    + intros c v Hin. vm_compute in Hin.
      repeat (apply elem_of_cons in Hin as [->|Hin]; [vm_compute; discriminate|]).
      by apply elem_of_nil in Hin.
    + split; [exact Hc|exact Hq].
  - destruct (C2_three_coverage_outcomes fixture_fossil_dps fixture_cols
                fixture_total_col [] entity_C) as (_ & _ & Hnone).
    destruct Hnone as (Hc & Hq & _).
    + left. reflexivity.
    + split; [exact Hc|exact Hq].
Defined.







(** ** Rescaling a row *)









(** ** Claims about the fossil total *)




(** ** Claims about the currency correction *)

Example normalize_currency_pln : Step2c.normalize_currency " iso4217:pln " = "PLN".
Proof. vm_compute. reflexivity. Qed.

Example fx_rate_pln_june :
  Step2c.get_fx_rate "iso4217:PLN" "2025-06-30" = ((232019 # 1000000)%Q, "ECB SDW 2025-06-30").
Proof. vm_compute. reflexivity. Qed.

Example fx_rate_pln_december :
  Step2c.get_fx_rate "PLN" "2025-12-31" = ((230000 # 1000000)%Q, "ECB SDW 2025-12-31").
Proof. vm_compute. reflexivity. Qed.

(** A currency of the table gets the rate of the table. *)
Lemma get_fx_rate_known currency ref_period rate :
  (Step2c.rates_for ref_period).1 !! Step2c.normalize_currency currency = Some rate ->
  (Step2c.get_fx_rate currency ref_period).1 = rate.
Proof.
  unfold Step2c.get_fx_rate. destruct (Step2c.rates_for ref_period) as [rates d].
  simpl. intros ->. reflexivity.
Qed.

(** C5, as stated, fails on the tag: for a currency that is not in the rate
    table the provenance returned with the rate 1.0 is the string
    [assumed_EUR], not [assumed]. *)
Lemma C5_counterexample :
  (Step2c.rates_for "2025-06-30").1 !! Step2c.normalize_currency "iso4217:xyz" = None
  /\ Step2c.get_fx_rate "iso4217:xyz" "2025-06-30" = (1%Q, "assumed_EUR")
  /\ Step2c.get_fx_rate "iso4217:xyz" "2025-06-30" <> (1%Q, "assumed").
Proof.
  vm_compute. repeat split; discriminate.
Qed.

(** C5, amended.  For a currency whose normalised code (marker removed,
    stripped, upper case) is not in the rate table of the period bucket,
    the rate is exactly 1 and the provenance is [assumed_EUR]. *)
Theorem C5_unknown_currency_rate_1_assumed_EUR (currency ref_period : string) :
  (Step2c.rates_for ref_period).1 !! Step2c.normalize_currency currency = None ->
  Step2c.get_fx_rate currency ref_period = (1%Q, "assumed_EUR").
Proof.
  unfold Step2c.get_fx_rate. destruct (Step2c.rates_for ref_period) as [rates d].
  simpl. intros ->. reflexivity.
Qed.

Lemma C5_witness :
  Step2c.get_fx_rate "iso4217:hrk" "2025-12-31" = (1%Q, "assumed_EUR").
Proof.
  apply C5_unknown_currency_rate_1_assumed_EUR. vm_compute. reflexivity.
Defined.

(** The float columns of a converted row. *)
Lemma convert_nums row :
  let n := Step2c.nums (Step2c.qs row) in
  let o := Step2c.convert row in
  let rate := Step2c.fx_rate_to_eur o in
  Step2c.out_nums o
  = <["D35_2_gas_eur_m" := fmul (Step2c.get0 n "D35_2_gas_eur_m") (Some rate)]>
    (<["C19_petrol_eur_m" := fmul (Step2c.get0 n "C19_petrol_eur_m") (Some rate)]>
    (<["B6_oilgas_eur_m" := fmul (Step2c.get0 n "B6_oilgas_eur_m") (Some rate)]>
    (<["B5_coal_eur_m" := fmul (Step2c.get0 n "B5_coal_eur_m") (Some rate)]>
    (<["fossil_eur_m" := Step2c.to_eur (Step2c.get n "fossil_total_eur_m") rate]>
    (<["gca_eur_m" := Step2c.to_eur (Step2c.get n "grand_total_eur_m") rate]>
    (<["fossil_reported_m" := Step2c.get n "fossil_total_eur_m"]>
    (<["gca_reported_m" := Step2c.get n "grand_total_eur_m"]>
    (<["quant_score_pct" := Step2c.get n "quant_score_pct"]>
    (<["quant_score" := Step2c.get n "quant_score"]> ∅))))))))).
Proof.
  unfold Step2c.convert.
  destruct (Step2c.get_fx_rate _ _) as [rate src]. reflexivity.
Qed.

Lemma convert_rate row :
  Step2c.fx_rate_to_eur (Step2c.convert row)
  = (Step2c.get_fx_rate (Step2c.normalize_currency (Step2c.str (Step2c.currency_cell row)))
       (Step2c.str (Step2c.ref_period_cell row))).1.
Proof.
  unfold Step2c.convert.
  destruct (Step2c.get_fx_rate _ _) as [rate src]. reflexivity.
Qed.



(** ** The sort keeps the rows *)

Section SortPerm.
Context {A : Type} (before : A -> A -> bool).

Lemma insert_by_perm x (l : list A) : insert_by before x l ≡ₚ x :: l.
Proof.
  induction l as [|y l IH]; simpl; [reflexivity|].
  destruct (before x y); [reflexivity|].
  rewrite IH. apply Permutation_swap.
Qed.

Lemma sort_by_perm (l : list A) : sort_by before l ≡ₚ l.
Proof.
  induction l as [|x l IH]; simpl; [reflexivity|].
  rewrite insert_by_perm, IH. reflexivity.
Qed.

Lemma elem_of_sort_by x (l : list A) : x ∈ sort_by before l <-> x ∈ l.
Proof. by rewrite sort_by_perm. Qed.
End SortPerm.

(** ** The composite index: the merge *)

Lemma filter_filter_nil {A} (P Q : A -> Prop)
    `{!forall x, Decision (P x), !forall x, Decision (Q x)} (l : list A) :
  (forall x, P x -> Q x -> False) -> filter P (filter Q l) = [].
Proof.
  intros HPQ. induction l as [|x l IH]; [reflexivity|].
  destruct (decide (Q x)) as [HQ|HQ].
  - rewrite (filter_cons_True Q) by exact HQ.
    rewrite filter_cons_False by (intros HP; exact (HPQ x HP HQ)). exact IH.
  - rewrite (filter_cons_False Q) by exact HQ. exact IH.
Qed.

(** The rows of the right table for one identifier: at most the first one. *)
Lemma filter_drop_duplicates l qs_df :
  filter (fun r => Step3.qs_lei r = l) (Step3.drop_duplicates qs_df)
  = match filter (fun r => Step3.qs_lei r = l) qs_df with
    | r :: _ => [r]
    | [] => []
    end.
Proof.
  induction qs_df as [|r t IH]; [reflexivity|]. cbn [Step3.drop_duplicates].
  destruct (decide (Step3.qs_lei r = l)) as [Heq|Hne].
  - rewrite !filter_cons_True by exact Heq. f_equal.
    apply filter_filter_nil. intros x Hx Hx'. congruence.
  - rewrite !filter_cons_False by exact Hne.
    rewrite list_filter_filter_l by (intros x Hx; congruence). exact IH.
Qed.

(** After the removal of duplicates every row of the left table is joined
    to exactly one row: the first exposure row of its identifier, or a row
    of missing values. *)
Lemma merge_row_drop_duplicates mx qs_df d :
  exists gca ccy ctry,
    Step3.merge_row mx (Step3.drop_duplicates qs_df) d
    = [Step3.joined mx d (first_pct qs_df (Step3.lei d)) gca ccy ctry].
Proof.
  unfold Step3.merge_row, first_pct. rewrite filter_drop_duplicates.
  destruct (filter _ qs_df) as [|r t]; simpl; eauto.
Qed.

Lemma elem_of_compute_dci r das_df qs_df :
  r ∈ Step3.compute_dci das_df qs_df
  <-> exists d gca ccy ctry,
        d ∈ das_df
        /\ r = Step3.joined (Step3.qs_max qs_df) d
                 (first_pct qs_df (Step3.lei d)) gca ccy ctry
        /\ Step3.merge_row (Step3.qs_max qs_df) (Step3.drop_duplicates qs_df) d = [r].
Proof.
  unfold Step3.compute_dci. rewrite elem_of_sort_by, list_elem_of_bind. split.
  - intros (d & Hr & Hd).
    destruct (merge_row_drop_duplicates (Step3.qs_max qs_df) qs_df d)
      as (gca & ccy & ctry & Hm).
    rewrite Hm in Hr. apply list_elem_of_singleton in Hr. subst r.
    exists d, gca, ccy, ctry. auto.
  - intros (d & gca & ccy & ctry & Hd & -> & Hm).
    exists d. split; [|exact Hd]. rewrite Hm. apply list_elem_of_here.
Qed.

(** Every row of the DAS table is in the output, whatever the QuantScore
    table holds. *)
Lemma compute_dci_keeps_das_rows das_df qs_df d :
  d ∈ das_df -> exists r, r ∈ Step3.compute_dci das_df qs_df /\ Step3.das r = d.
Proof.
  intros Hd.
  destruct (merge_row_drop_duplicates (Step3.qs_max qs_df) qs_df d)
    as (gca & ccy & ctry & Hm).
  eexists. split.
  - apply elem_of_compute_dci. exists d, gca, ccy, ctry. eauto.
  - reflexivity.
Qed.

(** An entity without a row in the DAS table is not in the output. *)
Lemma compute_dci_only_das_rows das_df qs_df r :
  r ∈ Step3.compute_dci das_df qs_df -> Step3.das r ∈ das_df.
Proof.
  intros (d & gca & ccy & ctry & Hd & -> & _)%elem_of_compute_dci. exact Hd.
Qed.

(** ** The composite index: the maximum of the sample *)

Lemma foldl_fmax_bound l acc m :
  foldl Step3.fmax acc l = Some m ->
  (forall a, acc = Some a -> (a <= m)%Q)
  /\ (forall p, Some p ∈ l -> (p <= m)%Q).
Proof.
  revert acc. induction l as [|x l IH]; intros acc H; simpl in H.
  - subst acc. split.
    + intros a [= ->]. lra.
    + intros p Hp. by apply elem_of_nil in Hp.
  - destruct (IH _ H) as [Hacc Hl]. split.
    + intros a ->. destruct x as [v|]; simpl in Hacc.
      * destruct (Qle_bool v a) eqn:Hva; [by apply Hacc|].
        specialize (Hacc v eq_refl).
        destruct (Qlt_le_dec a v) as [Hlt|Hle]; [lra|].
        apply Qle_bool_iff in Hle. congruence.
      * by apply Hacc.
    + intros p Hp. apply elem_of_cons in Hp as [<-|Hp]; [|by apply Hl].
      destruct acc as [a|]; simpl in Hacc; [|by apply Hacc].
      destruct (Qle_bool p a) eqn:Hpa; [|by apply Hacc].
      apply Qle_bool_iff in Hpa. specialize (Hacc a eq_refl). lra.
Qed.

Lemma foldl_fmax_attained l acc m :
  foldl Step3.fmax acc l = Some m -> acc = Some m \/ Some m ∈ l.
Proof.
  revert acc. induction l as [|x l IH]; intros acc H; simpl in H; [by left|].
  destruct (IH _ H) as [Hacc|Hl]; [|right; by apply list_elem_of_further].
  destruct acc as [a|], x as [v|]; simpl in Hacc.
  - destruct (Qle_bool v a); [by left|]. right. rewrite Hacc. apply list_elem_of_here.
  - by left.
  - right. rewrite Hacc. apply list_elem_of_here.
  - discriminate.
Qed.

(** [qs_max] is the largest ratio of the whole table. *)
Lemma qs_max_spec qs_df m :
  Step3.qs_max qs_df = Some m ->
  (exists q, q ∈ qs_df /\ Step3.quant_score_pct q = Some m)
  /\ (forall q p, q ∈ qs_df -> Step3.quant_score_pct q = Some p -> (p <= m)%Q).
Proof.
  unfold Step3.qs_max. intros H. split.
  - destruct (foldl_fmax_attained _ _ _ H) as [Hn|Hin]; [discriminate|].
    apply list_elem_of_fmap in Hin as (q & Hq & Hin). eauto.
  - intros q p Hq Hp. apply (proj2 (foldl_fmax_bound _ _ _ H)).
    apply list_elem_of_fmap. exists q. split; [by rewrite Hp|exact Hq].
Qed.

(** ** The composite index: rounding *)




(** ** Claims about the composite index *)




(** With two exposure rows for one bank the merge uses the first: bank A
    holds the maximum of the sample in its second row and is normalised by
    it from its first row. *)
Example normalized_uses_first_exposure_row :
  Step3.qs_max sample_A_twice = Some 5%Q
  /\ first_pct sample_A_twice (Step3.lei das_A) = Some 1%Q
  /\ Step3.quant_score_normalized <$> Step3.compute_dci [das_A] sample_A_twice
     = [Step3.XFin (1 # 5)].
Proof. vm_compute. repeat split. Qed.


(** C10: the merge is a left join on the DAS table.  Bank A has a DAS row
    and no row in the QuantScore table; it is in the output all the same,
    with a missing ratio and a missing index. *)
Theorem C10_left_join_keeps_entity_without_exposure :
  first_pct sample_without_A (Step3.lei das_A) = None
  /\ Step3.compute_dci [das_A] sample_without_A
     = [Step3.joined (Some 2%Q) das_A None None None None]
  /\ Step3.quant_score_normalized (Step3.joined (Some 2%Q) das_A None None None None)
     = Step3.XNaN
  /\ Step3.dci (Step3.joined (Some 2%Q) das_A None None None None) = Step3.XNaN.
Proof.
  vm_compute. repeat split.
Qed.

(** * Further properties *)

(** ** Strings *)

Lemma take_app (l t : string) : PyStr.take (String.length l) (l +:+ t) = l.
Proof.
  unfold PyStr.take. induction l as [|c l IH]; simpl.
  - destruct t; reflexivity.
  - rewrite IH. reflexivity.
Qed.

Lemma take_prefix n (s : string) :
  String.length (PyStr.take n s) = n -> exists t, s = PyStr.take n s +:+ t.
Proof.
  unfold PyStr.take. revert s. induction n as [|n IH]; intros s Hlen.
  - exists s. destruct s; reflexivity.
  - destruct s as [|c s]; simpl in *; [discriminate|].
    injection Hlen as Hlen. destruct (IH s Hlen) as [t Ht].
    exists t. change (String c s = String c (String.substring 0 n s +:+ t)).
    f_equal. exact Ht.
Qed.

Lemma substring_after (l t : string) m :
  String.substring (String.length l) m (l +:+ t) = String.substring 0 m t.
Proof. induction l as [|c l IH]; simpl; [reflexivity|exact IH]. Qed.

Lemma startswith_dot t :
  PyStr.startswith "." (String.substring 0 1 t) = true -> exists rest, t = "." +:+ rest.
Proof.
  unfold PyStr.startswith. intros H. apply prefix_correct in H.
  destruct t as [|c t]; [discriminate H|].
  exists t. destruct t; simpl in H; injection H as ->; reflexivity.
Qed.

(** ** The identifier in the folder name *)

(** The identifier that [LEI_PATTERN] extracts is the first twenty
    characters of the folder name, all capitals or digits, and a dot follows
    them; every name of that shape is matched. *)
Theorem lei_match_sound_and_complete :
  (forall nm l, Step1b.lei_match nm = Some l ->
     String.length l = 20%nat
     /\ Step1b.all_chars Step1b.is_lei_char l = true
     /\ exists rest, nm = l +:+ "." +:+ rest)
  /\ (forall l rest,
        String.length l = 20%nat ->
        Step1b.all_chars Step1b.is_lei_char l = true ->
        Step1b.lei_match (l +:+ "." +:+ rest) = Some l).
Proof.
  split.
  - intros nm l H. unfold Step1b.lei_match in H.
    destruct (String.length (PyStr.take 20 nm) =? 20)%nat eqn:Hlen; [|discriminate].
    destruct (Step1b.all_chars Step1b.is_lei_char (PyStr.take 20 nm)) eqn:Hall;
      [|discriminate].
    destruct (PyStr.startswith "." (String.substring 20 1 nm)) eqn:Hdot; [|discriminate].
    simpl in H. injection H as <-. apply Nat.eqb_eq in Hlen.
    split; [exact Hlen|]. split; [exact Hall|].
    destruct (take_prefix 20 nm Hlen) as [t Ht].
    remember (PyStr.take 20 nm) as l eqn:El. clear El.
    assert (String.substring 20 1 nm = String.substring 0 1 t) as Hsub
      by (rewrite Ht, <- Hlen; apply substring_after).
    rewrite Hsub in Hdot.
    destruct (startswith_dot t Hdot) as [rest ->]. exists rest. exact Ht.
  - intros l rest Hlen Hall. unfold Step1b.lei_match.
    assert (PyStr.take 20 (l +:+ "." +:+ rest) = l) as ->
      by (rewrite <- Hlen; apply take_app).
    assert (String.substring 20 1 (l +:+ "." +:+ rest)
            = String.substring 0 1 ("." +:+ rest)) as ->
      by (rewrite <- Hlen; apply substring_after).
    rewrite Hlen, Hall. destruct rest; reflexivity.
Qed.

Lemma lei_match_witness :
  Step1b.lei_match ("213800A1O379I6DMCU10" +:+ "." +:+ "CON_MT_PILLAR3")
  = Some "213800A1O379I6DMCU10".
Proof.
  apply (proj2 lei_match_sound_and_complete); reflexivity.
Defined.

(** ** The parser: status, totals and duplicate rows *)

(** A bank parses as soon as its folder name carries an identifier and
    [parameters.csv] exists; a missing [k_41.00.csv] is recorded as an
    error and leaves the row without any Template 1 figure, but the row
    still counts as parsed.  The error list is empty only when all three
    are there. *)
Theorem parse_bank_status (f : Step1b.folder) :
  let r := Step1b.parse_bank f in
  Step1b.lei r = Step1b.lei_match (Step1b.name f)
  /\ (Step1b.parse_ok r = true
      <-> is_Some (Step1b.lei_match (Step1b.name f))
          /\ is_Some (Step1b.parameters_csv f))
  /\ (Step1b.errors r = []
      <-> is_Some (Step1b.lei_match (Step1b.name f))
          /\ is_Some (Step1b.parameters_csv f)
          /\ is_Some (Step1b.k_41_00_csv f))
  /\ (Step1b.parse_ok r = true -> Step1b.k_41_00_csv f = None ->
        Step1b.has_template1 r = Some false
        /\ Step1b.errors r = ["k_41.00.csv missing"]
        /\ Step1b.floats r = ∅).
Proof.
  unfold Step1b.parse_bank.
  destruct (Step1b.lei_match (Step1b.name f)) as [l|];
    [destruct (Step1b.parameters_csv f) as [p|];
     [destruct (Step1b.k_41_00_csv f) as [rows|]|]|];
    cbn [Step1b.lei Step1b.parse_ok Step1b.errors Step1b.has_template1
         Step1b.floats Step1b.initial];
    repeat split; try done; intros; destruct_and?;
    try match goal with H : is_Some None |- _ => destruct (is_Some_None H) end;
    eauto.
Qed.

Lemma parse_bank_status_witness :
  let r := Step1b.parse_bank
             {| Step1b.name := "213800A1O379I6DMCU10.CON_MT_PILLAR3";
                Step1b.parameters_csv := Some ∅;
                Step1b.k_41_00_csv := None |} in
  Step1b.has_template1 r = Some false
  /\ Step1b.errors r = ["k_41.00.csv missing"]
  /\ Step1b.floats r = ∅.
Proof.
  apply (parse_bank_status
           {| Step1b.name := "213800A1O379I6DMCU10.CON_MT_PILLAR3";
              Step1b.parameters_csv := Some ∅;
              Step1b.k_41_00_csv := None |}); reflexivity.
Defined.

Lemma template1_quant_score_pct sf dv :
  exists ft, (ft == cprs_positive_sum dv * sf)%Q /\
    Step1b.template1 sf dv ∅ !! "quant_score" 
    = Some (match Step1b.get dv Step1b.DP_GRAND_TOTAL with
            | Some raw => if Qpos_b (raw * sf) then Some (ft / (raw * sf))%Q else None
            | None => None
            end)
    /\ Step1b.template1 sf dv ∅ !! "quant_score_pct"
    = Some (match Step1b.get dv Step1b.DP_GRAND_TOTAL with
            | Some raw => if Qpos_b (raw * sf)
                          then Some (ft / (raw * sf) * 100)%Q else None
            | None => None
            end).
Proof.
  unfold Step1b.template1.
  set (st := foldl _ _ _).
  exists (Step1b.fossil_total st). split; [apply template1_loop_total|].
  destruct (Step1b.get dv Step1b.DP_GRAND_TOTAL) as [raw|]; cbn [notna fmul gt0].
  - destruct (Qpos_b (raw * sf)); split;
      rewrite ?lookup_insert_ne by done; rewrite lookup_insert_eq; reflexivity.
  - split; rewrite ?lookup_insert_ne by done; rewrite lookup_insert_eq; reflexivity.
Qed.

Lemma Qpos_b_millions raw : Qpos_b (raw * (1 / 1000000)) = Qpos_b raw.
Proof.
  change (1 / 1000000)%Q with (1 # 1000000)%Q.
  destruct (Qpos_b raw) eqn:H.
  - apply Qpos_b_true. apply Qpos_b_true in H. lra.
  - apply Qpos_b_false. apply Qpos_b_false in H. lra.
Qed.

(** The parser stores a ratio exactly when the grand total is present and
    positive, and then the percentage is a hundred times the ratio;
    otherwise ratio and percentage are both missing. *)
Theorem parser_ratio_iff_positive_total
    (nm l : string) (params : gmap string string) (rows : list (string * cell)) :
  Step1b.lei_match nm = Some l ->
  let fl := Step1b.floats (Step1b.parse_bank (complete_folder nm params rows)) in
  let raw_total := Step1b.get (Step1b.dict_of_rows rows) Step1b.DP_GRAND_TOTAL in
  ((exists q, fl !! "quant_score" = Some (Some q))
   <-> (exists raw, raw_total = Some raw /\ (0 < raw)%Q))
  /\ (forall q, fl !! "quant_score" = Some (Some q) ->
        fl !! "quant_score_pct" = Some (Some (q * 100)%Q))
  /\ (fl !! "quant_score" = Some None <-> fl !! "quant_score_pct" = Some None).
Proof.
  intros Hl fl raw_total. subst fl.
  rewrite (parse_bank_complete _ _ _ _ Hl).
  destruct (template1_quant_score_pct (1 / 1000000) (Step1b.dict_of_rows rows))
    as (ft & _ & Hq & Hp).
  rewrite Hq, Hp. fold raw_total.
  destruct raw_total as [raw|].
  - rewrite Qpos_b_millions. destruct (Qpos_b raw) eqn:Hpos.
    + apply Qpos_b_true in Hpos. repeat split; eauto; try discriminate.
      intros q [= <-]. reflexivity.
    + apply Qpos_b_false in Hpos. repeat split; try discriminate; try done.
      * intros (q & [=]).
      * intros (raw' & [= <-] & ?). lra.
  - repeat split; try discriminate; try done.
    + intros (q & [=]).
    + intros (raw' & [=] & _).
Qed.

Lemma parser_ratio_iff_positive_total_witness :
  Step1b.floats
    (Step1b.parse_bank
       (complete_folder "213800A1O379I6DMCU10.CON_MT_PILLAR3" ∅
          [("dp471828", Some 1000000000%Q); ("dp471326", Some 50000000%Q)]))
  !! "quant_score_pct"
  = Some (Some ((0 + 50000000 * (1 / 1000000)) / (1000000000 * (1 / 1000000)) * 100)%Q).
Proof.
  apply (parser_ratio_iff_positive_total
           "213800A1O379I6DMCU10.CON_MT_PILLAR3" "213800A1O379I6DMCU10" ∅
           [("dp471828", Some 1000000000%Q); ("dp471326", Some 50000000%Q)] eq_refl).
  vm_compute. reflexivity.
Defined.

(** The four stored sector amounts are never missing and never negative,
    and they add up to the stored fossil total. *)
Theorem parser_components_add_up
    (nm l : string) (params : gmap string string) (rows : list (string * cell)) :
  Step1b.lei_match nm = Some l ->
  let fl := Step1b.floats (Step1b.parse_bank (complete_folder nm params rows)) in
  exists coal oilgas petrol gas total,
    fl !! "B5_coal_m_local" = Some (Some coal)
    /\ fl !! "B6_oilgas_m_local" = Some (Some oilgas)
    /\ fl !! "C19_petrol_m_local" = Some (Some petrol)
    /\ fl !! "D35_2_gas_m_local" = Some (Some gas)
    /\ fl !! "fossil_total_m_local" = Some (Some total)
    /\ (0 <= coal)%Q /\ (0 <= oilgas)%Q /\ (0 <= petrol)%Q /\ (0 <= gas)%Q
    /\ (total == coal + oilgas + petrol + gas)%Q.
Proof.
  intros Hl fl. subst fl. rewrite (parse_bank_complete _ _ _ _ Hl).
  set (dv := Step1b.dict_of_rows rows). set (sf := (1 / 1000000)%Q).
  destruct (template1_fossil_total sf dv) as (total & Htotal & Heq).
  exists (component_out sf dv "dp471326"), (component_out sf dv "dp471332"),
         (component_out sf dv "dp471410"), (component_out sf dv "dp471566"), total.
  assert (forall dp, 0 <= component_out sf dv dp)%Q as Hnn.
  { intros dp. unfold component_out.
    destruct (Step1b.get dv dp) as [raw|]; [|lra].
    destruct (Qpos_b raw) eqn:Hp; [|lra]. apply Qpos_b_true in Hp.
    subst sf. change (1 / 1000000)%Q with (1 # 1000000)%Q. lra. }
  split; [apply (template1_component sf dv "dp471326" "B5_coal"); repeat constructor|].
  split; [apply (template1_component sf dv "dp471332" "B6_oilgas"); repeat constructor|].
  split; [apply (template1_component sf dv "dp471410" "C19_petrol"); repeat constructor|].
  split; [apply (template1_component sf dv "dp471566" "D35_2_gas"); repeat constructor|].
  split; [exact Htotal|].
  repeat (split; [apply Hnn|]).
  rewrite Heq, !component_out_positive_part.
  unfold cprs_positive_sum. simpl. ring.
Qed.

Lemma parser_components_add_up_witness :
  exists coal oilgas petrol gas total,
    Step1b.floats
      (Step1b.parse_bank
         (complete_folder "213800A1O379I6DMCU10.CON_MT_PILLAR3" ∅
            [("dp471326", Some 50000000%Q); ("dp471566", Some 7000000%Q)]))
    !! "fossil_total_m_local" = Some (Some total)
    /\ (0 <= coal)%Q /\ (0 <= oilgas)%Q /\ (0 <= petrol)%Q /\ (0 <= gas)%Q
    /\ (total == coal + oilgas + petrol + gas)%Q.
Proof.
  destruct (parser_components_add_up
              "213800A1O379I6DMCU10.CON_MT_PILLAR3" "213800A1O379I6DMCU10" ∅
              [("dp471326", Some 50000000%Q); ("dp471566", Some 7000000%Q)] eq_refl)
    as (coal & oilgas & petrol & gas & total & _ & _ & _ & _ & H).
  exists coal, oilgas, petrol, gas, total. exact H.
Defined.

Lemma dict_of_rows_from (m : gmap string cell) rows k :
  k ∉ rows.*1 -> foldl (fun m kv => <[kv.1 := kv.2]> m) m rows !! k = m !! k.
Proof.
  revert m. induction rows as [|[k' v'] rows IH]; intros m Hk; [reflexivity|].
  rewrite fmap_cons, not_elem_of_cons in Hk. destruct Hk as [Hne Hk].
  simpl in *. rewrite IH by exact Hk. apply lookup_insert_ne. congruence.
Qed.

(** When [k_41.00.csv] has several rows for one datapoint, the last one
    counts. *)
Theorem dict_of_rows_last_row_wins
    (rows rest : list (string * cell)) (k : string) (v : cell) :
  k ∉ rest.*1 ->
  Step1b.dict_of_rows (rows ++ (k, v) :: rest) !! k = Some v.
Proof.
  intros Hk. unfold Step1b.dict_of_rows. rewrite foldl_app. simpl.
  rewrite dict_of_rows_from by exact Hk. apply lookup_insert_eq.
Qed.

Lemma dict_of_rows_last_row_wins_witness :
  Step1b.dict_of_rows
    ([("dp471828", Some 1%Q)] ++ ("dp471828", Some 2%Q) :: [("dp471326", None)])
  !! "dp471828" = Some (Some 2%Q).
Proof.
  apply dict_of_rows_last_row_wins. vm_compute. intros H.
  repeat (apply elem_of_cons in H as [H|H]; [discriminate|]).
  by apply elem_of_nil in H.
Defined.

(** ** The mapping table *)

Lemma span_spec p s :
  s = (Step0.span p s).1 +:+ (Step0.span p s).2
  /\ Step1b.all_chars p (Step0.span p s).1 = true
  /\ (forall c r, (Step0.span p s).2 = String c r -> p c = false).
Proof.
  induction s as [|c s (IH1 & IH2 & IH3)]; simpl.
  - repeat split. discriminate.
  - destruct (p c) eqn:Hp.
    + destruct (Step0.span p s) as [a b]. simpl in *. repeat split.
      * change (String c s = String c (a +:+ b)). by f_equal.
      * by rewrite Hp.
      * exact IH3.
    + simpl. repeat split. intros c' r [= <- <-]. exact Hp.
Qed.

Lemma span_app p (a b : string) :
  Step1b.all_chars p a = true ->
  (forall c r, b = String c r -> p c = false) ->
  Step0.span p (a +:+ b) = (a, b).
Proof.
  intros Ha Hb. induction a as [|c a IH].
  - change (EmptyString +:+ b) with b. destruct b as [|c r]; [reflexivity|].
    simpl. rewrite (Hb c r eq_refl). reflexivity.
  - simpl in Ha. apply andb_true_iff in Ha as [Hc Ha].
    change (String c a +:+ b) with (String c (a +:+ b)). simpl.
    rewrite Hc, (IH Ha). reflexivity.
Qed.

Lemma cellcode_at_digits s g1 g2 :
  Step0.cellcode_at s = Some (g1, g2) -> digits g1 /\ digits g2.
Proof.
  unfold Step0.cellcode_at. destruct s as [|c t]; [discriminate|].
  destruct (ascii_dec c "r") as [->|Hne].
  - pose proof (span_spec PyStr.is_digit t) as (_ & H1 & _).
    destruct (Step0.span PyStr.is_digit t) as [rs t1]. simpl in H1.
    destruct rs as [|r0 rs]; [discriminate|].
    destruct t1 as [|c1 t2]; [discriminate|].
    destruct (ascii_dec c1 ",") as [->|Hne]; [|by destruct c1 as [[] [] [] [] [] [] [] []]].
    destruct (Step0.span PyStr.is_space t2) as [ws t3].
    destruct t3 as [|c3 t4]; [discriminate|].
    destruct (ascii_dec c3 "c") as [->|Hne]; [|by destruct c3 as [[] [] [] [] [] [] [] []]].
    pose proof (span_spec PyStr.is_digit t4) as (_ & H2 & _).
    destruct (Step0.span PyStr.is_digit t4) as [cs t5]. simpl in H2.
    destruct cs as [|c0 cs]; [discriminate|].
    intros [= <- <-]. split; split; done.
  - by destruct c as [[] [] [] [] [] [] [] []].
Qed.

Lemma cellcode_search_digits s g1 g2 :
  Step0.cellcode_search s = Some (g1, g2) -> digits g1 /\ digits g2.
Proof.
  induction s as [|c s IH].
  - discriminate.
  - change (Step0.cellcode_search (String c s))
      with (match Step0.cellcode_at (String c s) with
            | Some m => Some m
            | None => Step0.cellcode_search s
            end).
    destruct (Step0.cellcode_at (String c s)) as [[a b]|] eqn:Hat.
    + intros [= <- <-]. eapply cellcode_at_digits, Hat.
    + exact IH.
Qed.

Lemma last_segment_no_colon v : Step0.has_colon (Step0.last_segment v) = false.
Proof.
  induction v as [|c v IH]; [reflexivity|]. simpl.
  destruct (Step0.has_colon v) eqn:Hv; [exact IH|].
  destruct (Ascii.eqb c ":") eqn:Hc; [exact Hv|]. simpl. by rewrite Hc, Hv.
Qed.

(** [v.split(":")[-1]] has no colon; it is [v] itself when [v] has none,
    and otherwise [v] ends with a colon followed by it. *)
Theorem last_segment_spec (v : string) :
  Step0.has_colon (Step0.last_segment v) = false
  /\ (Step0.has_colon v = false -> Step0.last_segment v = v)
  /\ (Step0.has_colon v = true ->
        exists p, v = p +:+ ":" +:+ Step0.last_segment v).
Proof.
  split; [apply last_segment_no_colon|]. induction v as [|c v [IH1 IH2]].
  - split; [reflexivity|discriminate].
  - simpl. destruct (Step0.has_colon v) eqn:Hv.
    + rewrite orb_true_r. split; [discriminate|]. intros _.
      destruct (IH2 eq_refl) as [p Hp]. exists (String c p).
      change (String c v = String c (p +:+ ":" +:+ Step0.last_segment v)).
      by f_equal.
    + rewrite orb_false_r. destruct (Ascii.eqb c ":") eqn:Hc.
      * split; [discriminate|]. intros _. apply Ascii.eqb_eq in Hc as ->.
        exists EmptyString. reflexivity.
      * split; [reflexivity|discriminate].
Qed.

Lemma last_segment_spec_witness :
  exists p, "eba_NC:B5" = p +:+ ":" +:+ Step0.last_segment "eba_NC:B5".
Proof. apply last_segment_spec. reflexivity. Defined.

Lemma nac_of_dims_no_colon dims : Step0.has_colon (Step0.nac_of_dims dims) = false.
Proof.
  induction dims as [|[k v] dims IH]; [reflexivity|]. simpl.
  destruct (PyStr.contains "NAC" k); [apply last_segment_no_colon|exact IH].
Qed.




(** Every row of the table has a row code [r] and a column code [c], each
    followed by a non-empty string of digits; it is flagged as the grand
    total exactly when the digits of the row are [0560]; its NAC code
    contains no colon. *)
Theorem mapping_row_codes (props : list (string * Step0.info)) (r : Step0.mapping_row) :
  r ∈ Step0.build_mapping props ->
  exists g1 g2,
    digits g1 /\ digits g2
    /\ Step0.row_code r = "r" +:+ g1
    /\ Step0.col_code r = "c" +:+ g2
    /\ (Step0.is_grand_total r = true <-> g1 = "0560")
    /\ Step0.has_colon (Step0.nac_code r) = false.
Proof.
  unfold Step0.build_mapping. intros Hr.
  apply list_elem_of_omap in Hr as ([dp i] & _ & Hrow).
  unfold Step0.entry_row in Hrow. cbn [fst snd] in Hrow.
  destruct (Step0.cellcode_search (Step0.cellcode i)) as [[g1 g2]|] eqn:Hs;
    [|discriminate].
  apply (inj Some) in Hrow. subst r.
  destruct (cellcode_search_digits _ _ _ Hs) as [H1 H2].
  exists g1, g2. cbn [Step0.row_code Step0.col_code Step0.is_grand_total Step0.nac_code].
  split; [exact H1|]. split; [exact H2|]. split; [reflexivity|]. split; [reflexivity|].
  split; [|apply nac_of_dims_no_colon].
  rewrite String.eqb_eq. split.
  - intros H. change ("r" +:+ g1) with (String "r" g1) in H. congruence.
  - intros ->. reflexivity.
Qed.

Lemma mapping_row_codes_witness :
  exists r g1 g2,
    r ∈ Step0.build_mapping fixture_props
    /\ digits g1 /\ digits g2
    /\ Step0.row_code r = "r" +:+ g1
    /\ Step0.col_code r = "c" +:+ g2
    /\ (Step0.is_grand_total r = true <-> g1 = "0560")
    /\ Step0.has_colon (Step0.nac_code r) = false.
Proof.
  assert (is_Some (head (Step0.build_mapping fixture_props))) as [r Hr]
    by (vm_compute; eauto).
  assert (r ∈ Step0.build_mapping fixture_props) as Hin.
  { destruct (Step0.build_mapping fixture_props) as [|r' l]; [discriminate Hr|].
    apply (inj Some) in Hr. subst r'. apply list_elem_of_here. }
  destruct (mapping_row_codes fixture_props r Hin) as (g1 & g2 & H).
  exists r, g1, g2. split; [exact Hin|exact H].
Defined.

Lemma span_all p (a : string) :
  Step1b.all_chars p a = true -> Step0.span p a = (a, EmptyString).
Proof.
  intros Ha. induction a as [|c a IH]; [reflexivity|].
  simpl in *. apply andb_true_iff in Ha as [Hc Ha]. by rewrite Hc, (IH Ha).
Qed.

(** A cell code [r<digits>,<blanks>c<digits>] is read back as its two
    digit strings, whatever follows the second one, as long as that does
    not go on with a digit. *)
Theorem cellcode_round_trip (g1 g2 ws rest : string) :
  digits g1 -> digits g2 -> blanks ws ->
  (forall c t, rest = String c t -> PyStr.is_digit c = false) ->
  Step0.cellcode_search ("r" +:+ g1 +:+ "," +:+ ws +:+ "c" +:+ g2 +:+ rest)
  = Some (g1, g2).
Proof.
  intros [Hn1 Hd1] [Hn2 Hd2] Hws Hrest.
  change ("r" +:+ g1 +:+ "," +:+ ws +:+ "c" +:+ g2 +:+ rest)
    with (String "r" (g1 +:+ String "," (ws +:+ String "c" (g2 +:+ rest)))).
  set (t := (g1 +:+ String "," (ws +:+ String "c" (g2 +:+ rest)))).
  assert (Step0.cellcode_at (String "r" t) = Some (g1, g2)) as Hat.
  { unfold Step0.cellcode_at. subst t.
    rewrite (span_app PyStr.is_digit g1) by (try done; by intros c r [= <- _]).
    destruct g1 as [|c1 g1]; [done|].
    rewrite (span_app PyStr.is_space ws) by (try done; by intros c r [= <- _]).
    rewrite (span_app PyStr.is_digit g2) by done.
    destruct g2 as [|c2 g2]; [done|]. reflexivity. }
  change (Step0.cellcode_search (String "r" t))
    with (match Step0.cellcode_at (String "r" t) with
          | Some m => Some m
          | None => Step0.cellcode_search t
          end).
  rewrite Hat. reflexivity.
Qed.

Lemma cellcode_round_trip_witness :
  Step0.cellcode_search ("r" +:+ "0560" +:+ "," +:+ " " +:+ "c" +:+ "0010" +:+ "}")
  = Some ("0560", "0010").
Proof.
  apply cellcode_round_trip.
  - split; [discriminate|reflexivity].
  - split; [discriminate|reflexivity].
  - reflexivity.
  - intros c t [= <- _]. reflexivity.
Defined.

(** ** The mapping table and the sector columns of the calculator *)

Lemma entry_row_fossil dp i r :
  Step0.entry_row dp i = Some r -> Step0.is_cprs_fossil r = true ->
  Step0.nac_code r ∈ Step2bSelect.CPRS_NAC.
Proof.
  unfold Step0.entry_row.
  destruct (Step0.cellcode_search (Step0.cellcode i)) as [[g1 g2]|]; intros H;
    [|discriminate H].
  apply (inj Some) in H. subst r. cbn [Step0.is_cprs_fossil Step0.nac_code].
  intros Hf. apply bool_decide_eq_true in Hf as [lbl Hl].
  unfold Step0.lookup in Hl. apply elem_of_list_to_map_2 in Hl.
  unfold Step0.CPRS_FOSSIL_NAC in Hl. unfold Step2bSelect.CPRS_NAC.
  repeat (apply elem_of_cons in Hl as [Hl|Hl];
          [apply (f_equal fst) in Hl; cbn [fst] in Hl; rewrite Hl;
           repeat constructor|]).
  by apply elem_of_nil in Hl.
Qed.

(** Every fossil datapoint that the calculator selects from a built
    mapping table carries one of the seven CPRS codes, and the output of
    the calculator has a sector column for that code. *)
Theorem selected_fossil_datapoints_have_a_sector_column
    (props : list (string * Step0.info)) (d : Step2b.fossil_dp) :
  d ∈ Step2bSelect.fossil_dps (Step0.build_mapping props) ->
  Step2b.nac_code d ∈ Step2bSelect.CPRS_NAC
  /\ exists col, (col, Step2b.nac_code d) ∈ Step2b.sector_columns.
Proof.
  unfold Step2bSelect.fossil_dps. intros Hd.
  apply list_elem_of_fmap in Hd as (r & -> & Hr).
  apply list_elem_of_filter in Hr as [[Hf _] Hr].
  unfold Step0.build_mapping in Hr.
  apply list_elem_of_omap in Hr as ([dp i] & _ & Hrow).
  cbn [Step2b.nac_code]. pose proof (entry_row_fossil _ _ _ Hrow Hf) as Hnac.
  split; [exact Hnac|].
  unfold Step2bSelect.CPRS_NAC in Hnac. unfold Step2b.sector_columns.
  repeat (apply elem_of_cons in Hnac as [->|Hnac];
          [eexists; repeat first [apply list_elem_of_here|apply list_elem_of_further]|]).
  by apply elem_of_nil in Hnac.
Qed.

Lemma selected_fossil_datapoints_witness :
  let d := {| Step2b.datapoint := "dp471326"; Step2b.nac_code := "B5" |} in
  Step2b.nac_code d ∈ Step2bSelect.CPRS_NAC
  /\ exists col, (col, Step2b.nac_code d) ∈ Step2b.sector_columns.
Proof.
  apply (selected_fossil_datapoints_have_a_sector_column fixture_props).
  vm_compute. constructor.
Defined.

(** ** The sector breakdown of the calculator *)







(** ** The calculator: ratio, coverage and the fallback total *)

(** A row of the calculator has a ratio exactly when its coverage is not
    [no_data], that is when its grand total is present and positive; the
    percentage is a hundred times the ratio and is missing with it. *)
Theorem calculator_ratio_iff_coverage
    (fd : list Step2b.fossil_dp) (cols : list string) (tc : option string)
    (banks : list Step2b.bank) (row : Step2b.t1_row) :
  let r := Step2b.score_row fd cols tc banks row in
  (Step2b.out_coverage r = Step2b.no_data
   <-> Step2b.nums r !! "quant_score" = Some None)
  /\ (Step2b.out_coverage r <> Step2b.no_data
      <-> exists g, Step2b.grand_total_of tc banks row = Some g /\ (0 < g)%Q)
  /\ (forall q, Step2b.nums r !! "quant_score" = Some (Some q) ->
        Step2b.nums r !! "quant_score_pct" = Some (Some (q * 100)%Q))
  /\ (Step2b.nums r !! "quant_score" = Some None ->
        Step2b.nums r !! "quant_score_pct" = Some None).
Proof.
  intros r.
  destruct (score_row_core fd cols tc banks row) as (Hc & Hq & Hp & _).
  fold r in Hc, Hq, Hp. rewrite Hc, Hq, Hp. clear Hc Hq Hp.
  destruct (Step2b.grand_total_of tc banks row) as [g|];
    [destruct (Qpos_b g) eqn:Hg|].
  - apply Qpos_b_true in Hg.
    destruct (positive_values (Step2b.cells row) cols) as [|x fv].
    + rewrite quantscore_zero by done. cbn [fst snd notna fmul].
      repeat split; try discriminate; try done; eauto.
      intros q [= <-]. reflexivity.
    + rewrite quantscore_full by done. cbn [fst snd notna fmul].
      repeat split; try discriminate; try done; eauto.
      intros q [= <-]. reflexivity.
  - rewrite quantscore_no_data by exact Hg. cbn [fst snd notna].
    apply Qpos_b_false in Hg.
    repeat split; try discriminate; try done.
    intros (g' & [= <-] & ?). lra.
  - rewrite quantscore_no_data by reflexivity. cbn [fst snd notna].
    repeat split; try discriminate; try done.
    intros (g' & [=] & _).
Qed.

Lemma calculator_ratio_iff_coverage_witness :
  Step2b.nums (score_fixture entity_A) !! "quant_score_pct"
  = Some (Some (Step2b.sum [50000000] / 1000000000 * 100)%Q).
Proof.
  apply (calculator_ratio_iff_coverage fixture_fossil_dps fixture_cols
           fixture_total_col [] entity_A).
  vm_compute. reflexivity.
Defined.

(** Without a grand-total column the grand total of a bank is read from
    the banks table: from the first row whose identifier starts with the
    first fifteen characters of the bank's identifier.  When there is no
    such row the bank has no grand total and its coverage is [no_data]. *)
Theorem grand_total_fallback
    (fd : list Step2b.fossil_dp) (cols : list string)
    (banks : list Step2b.bank) (row : Step2b.t1_row) :
  (forall pre b post,
     banks = (pre ++ b :: post)%list ->
     (forall b', b' ∈ pre ->
        PyStr.startswith (PyStr.take 15 (Step2b.lei row)) (Step2b.bank_lei b') = false) ->
     PyStr.startswith (PyStr.take 15 (Step2b.lei row)) (Step2b.bank_lei b) = true ->
     Step2b.grand_total_of None banks row = Step2b.total_gca_eur b)
  /\ ((forall b, b ∈ banks ->
         PyStr.startswith (PyStr.take 15 (Step2b.lei row)) (Step2b.bank_lei b) = false) ->
      Step2b.grand_total_of None banks row = None
      /\ Step2b.out_coverage (Step2b.score_row fd cols None banks row) = Step2b.no_data).
Proof.
  unfold Step2b.grand_total_of, Step2b.bank_rows. split.
  - intros pre b post -> Hpre Hb. rewrite filter_app.
    assert (filter (fun b0 => PyStr.startswith (PyStr.take 15 (Step2b.lei row))
                                (Step2b.bank_lei b0) = true) pre = []) as ->.
    { induction pre as [|x pre IH]; [reflexivity|].
      rewrite filter_cons_False.
      - apply IH. intros b' Hb'. apply Hpre. by apply list_elem_of_further.
      - rewrite (Hpre x (list_elem_of_here _ _)). discriminate. }
    rewrite filter_cons_True by exact Hb. reflexivity.
  - intros Hnone.
    assert (filter (fun b0 => PyStr.startswith (PyStr.take 15 (Step2b.lei row))
                                (Step2b.bank_lei b0) = true) banks = []) as Hf.
    { induction banks as [|x banks IH]; [reflexivity|].
      rewrite filter_cons_False.
      - apply IH. intros b' Hb'. apply Hnone. by apply list_elem_of_further.
      - rewrite (Hnone x (list_elem_of_here _ _)). discriminate. }
    split; [by rewrite Hf|].
    destruct (score_row_core fd cols None banks row) as (Hc & _).
    rewrite Hc. unfold Step2b.grand_total_of, Step2b.bank_rows. rewrite Hf.
    rewrite quantscore_no_data by reflexivity. reflexivity.
Qed.

Lemma grand_total_fallback_witness :
  Step2b.grand_total_of None
    [ {| Step2b.bank_lei := "BBBBBBBBBBBBBBBBBBBB"; Step2b.total_gca_eur := Some 7%Q;
         Step2b.bank_country := "MT"; Step2b.bank_ref_period := "2025-06-30" |};
      {| Step2b.bank_lei := "AAAAAAAAAAAAAAAAAAAA.CON"; Step2b.total_gca_eur := Some 9%Q;
         Step2b.bank_country := "IT"; Step2b.bank_ref_period := "2025-06-30" |} ]
    entity_A
  = Some 9%Q.
Proof.
  refine (proj1 (grand_total_fallback [] [] _ entity_A)
            [ {| Step2b.bank_lei := "BBBBBBBBBBBBBBBBBBBB"; Step2b.total_gca_eur := Some 7%Q;
                 Step2b.bank_country := "MT"; Step2b.bank_ref_period := "2025-06-30" |} ]
            {| Step2b.bank_lei := "AAAAAAAAAAAAAAAAAAAA.CON"; Step2b.total_gca_eur := Some 9%Q;
               Step2b.bank_country := "IT"; Step2b.bank_ref_period := "2025-06-30" |}
            [] eq_refl _ eq_refl).
  intros b' Hb'. apply list_elem_of_singleton in Hb' as ->. reflexivity.
Defined.

(** ** The currency correction *)

Lemma upper_char_idem c : PyStr.upper_char (PyStr.upper_char c) = PyStr.upper_char c.
Proof. destruct c as [[] [] [] [] [] [] [] []]; reflexivity. Qed.

Lemma is_space_upper_char c : PyStr.is_space (PyStr.upper_char c) = PyStr.is_space c.
Proof. destruct c as [[] [] [] [] [] [] [] []]; reflexivity. Qed.

Lemma upper_char_not_i c : PyStr.upper_char c <> "i"%char.
Proof. destruct c as [[] [] [] [] [] [] [] []]; discriminate. Qed.

Lemma upper_idem s : PyStr.upper (PyStr.upper s) = PyStr.upper s.
Proof.
  induction s as [|c s IH]; [reflexivity|].
  cbn [PyStr.upper]. by rewrite upper_char_idem, IH.
Qed.

Lemma lstrip_upper s : PyStr.lstrip (PyStr.upper s) = PyStr.upper (PyStr.lstrip s).
Proof.
  induction s as [|c s IH]; [reflexivity|].
  cbn [PyStr.upper PyStr.lstrip]. rewrite is_space_upper_char.
  destruct (PyStr.is_space c); [exact IH|reflexivity].
Qed.

Lemma rstrip_upper s : PyStr.rstrip (PyStr.upper s) = PyStr.upper (PyStr.rstrip s).
Proof.
  induction s as [|c s IH]; [reflexivity|].
  cbn [PyStr.upper PyStr.rstrip]. rewrite IH, is_space_upper_char.
  destruct (PyStr.rstrip s); cbn [PyStr.upper]; [|reflexivity].
  destruct (PyStr.is_space c); reflexivity.
Qed.

Lemma rstrip_idem s : PyStr.rstrip (PyStr.rstrip s) = PyStr.rstrip s.
Proof.
  induction s as [|c s IH]; [reflexivity|].
  cbn [PyStr.rstrip]. destruct (PyStr.rstrip s) as [|d r] eqn:E.
  - destruct (PyStr.is_space c) eqn:Ec; [reflexivity|].
    cbn [PyStr.rstrip]. by rewrite Ec.
  - cbn [PyStr.rstrip] in *. rewrite IH. reflexivity.
Qed.

(** A stripped string does not start with whitespace, and stripping it on
    the right does not change that. *)
Lemma lstrip_rstrip_lstrip s :
  PyStr.lstrip (PyStr.rstrip (PyStr.lstrip s)) = PyStr.rstrip (PyStr.lstrip s).
Proof.
  induction s as [|c s IH]; [reflexivity|].
  cbn [PyStr.lstrip]. destruct (PyStr.is_space c) eqn:Ec; [exact IH|].
  cbn [PyStr.rstrip]. destruct (PyStr.rstrip s); cbn [PyStr.lstrip];
    rewrite ?Ec; cbn [PyStr.lstrip]; rewrite ?Ec; reflexivity.
Qed.

Lemma strip_idem s : PyStr.strip (PyStr.strip s) = PyStr.strip s.
Proof.
  unfold PyStr.strip. by rewrite lstrip_rstrip_lstrip, rstrip_idem.
Qed.

Lemma strip_upper s : PyStr.strip (PyStr.upper s) = PyStr.upper (PyStr.strip s).
Proof. unfold PyStr.strip. by rewrite lstrip_upper, rstrip_upper. Qed.

(** An upper-case string holds no [iso4217:] marker. *)
Lemma replace_marker_upper s :
  PyStr.replace "iso4217:" EmptyString (PyStr.upper s) = PyStr.upper s.
Proof.
  unfold PyStr.replace. induction s as [|c s IH]; [reflexivity|].
  cbn [PyStr.upper PyStr.replace_from].
  assert (PyStr.startswith "iso4217:" (String (PyStr.upper_char c) (PyStr.upper s)) = false)
    as ->.
  { unfold PyStr.startswith.
    change (String.prefix "iso4217:" (String (PyStr.upper_char c) (PyStr.upper s)))
      with (if ascii_dec "i" (PyStr.upper_char c)
            then String.prefix "so4217:" (PyStr.upper s) else false).
    destruct (ascii_dec "i" (PyStr.upper_char c)) as [E|]; [|reflexivity].
    by destruct (upper_char_not_i c). }
  by rewrite IH.
Qed.

(** The normalisation of a currency code is idempotent: the code that
    [main] normalises and stores in [base_currency] is the key under which
    [get_fx_rate], which normalises it again, looks the rate up. *)
Theorem normalize_currency_idempotent (currency ref_period : string) :
  Step2c.normalize_currency (Step2c.normalize_currency currency)
  = Step2c.normalize_currency currency
  /\ Step2c.get_fx_rate (Step2c.normalize_currency currency) ref_period
     = Step2c.get_fx_rate currency ref_period.
Proof.
  assert (Step2c.normalize_currency (Step2c.normalize_currency currency)
          = Step2c.normalize_currency currency) as H.
  { unfold Step2c.normalize_currency.
    rewrite replace_marker_upper, strip_upper, strip_idem, upper_idem. reflexivity. }
  split; [exact H|].
  unfold Step2c.get_fx_rate. rewrite H. reflexivity.
Qed.

(** The provenance tells whether the rate was found: it is [assumed_EUR],
    with the rate 1, exactly when the normalised code is not in the table
    of the period bucket, and it names the date of that table otherwise,
    with the rate of the table. *)
Theorem fx_provenance (currency ref_period : string) :
  let code := Step2c.normalize_currency currency in
  let table := (Step2c.rates_for ref_period).1 in
  let date := (Step2c.rates_for ref_period).2 in
  ((Step2c.get_fx_rate currency ref_period).2 = "assumed_EUR" <-> table !! code = None)
  /\ (forall rate, table !! code = Some rate ->
        Step2c.get_fx_rate currency ref_period = (rate, "ECB SDW " +:+ date))
  /\ (date = "2025-12-31" \/ date = "2025-06-30")
  /\ (date = "2025-12-31" <-> PyStr.contains "2025-12" ref_period = true).
Proof.
  intros code table date. subst code table date.
  unfold Step2c.get_fx_rate, Step2c.rates_for.
  destruct (PyStr.contains "2025-12" ref_period);
    cbn [fst snd];
    destruct (_ !! Step2c.normalize_currency currency) as [rate|] eqn:E;
    cbn [fst snd]; (split; [split; [discriminate || done|discriminate || done]|]);
    (split; [intros r; try discriminate; intros [= <-]; reflexivity|]);
    (split; [by auto|]); split; try done; discriminate.
Qed.

Lemma fx_provenance_witness :
  Step2c.get_fx_rate "iso4217:pln " "2025-12-31"
  = ((230000 # 1000000)%Q, "ECB SDW 2025-12-31").
Proof.
  apply (proj1 (proj2 (fx_provenance "iso4217:pln " "2025-12-31"))).
  vm_compute. reflexivity.
Defined.

Lemma to_eur_rate_1 x rate : (rate == 1)%Q -> cell_eq (Step2c.to_eur x rate) x.
Proof.
  intros H. destruct x as [q|]; cbn; [|exact I]. rewrite H. ring.
Qed.

Lemma fmul_rate_1 x rate : (rate == 1)%Q -> cell_eq (fmul x (Some rate)) x.
Proof.
  intros H. destruct x as [q|]; cbn; [|exact I]. rewrite H. ring.
Qed.

(** A row reported in euro keeps its amounts: in both period buckets the
    rate of EUR is 1 and is found in the table, so the converted grand
    total, fossil total and sector amounts equal the reported ones. *)
Theorem euro_rows_keep_their_amounts (row : Step2c.merged_row) :
  Step2c.normalize_currency (Step2c.str (Step2c.currency_cell row)) = "EUR" ->
  let n := Step2c.nums (Step2c.qs row) in
  let o := Step2c.convert row in
  (Step2c.fx_rate_to_eur o == 1)%Q
  /\ Step2c.base_currency o = "EUR"
  /\ Step2c.fx_source o <> "assumed_EUR"
  /\ cell_eq (Step2c.get (Step2c.out_nums o) "gca_eur_m") (Step2c.get n "grand_total_eur_m")
  /\ cell_eq (Step2c.get (Step2c.out_nums o) "fossil_eur_m") (Step2c.get n "fossil_total_eur_m")
  /\ Forall (fun k => cell_eq (Step2c.get (Step2c.out_nums o) k) (Step2c.get0 n k))
       converted_sector_columns.
Proof.
  intros Hc n o.
  assert (Step2c.get_fx_rate "EUR" (Step2c.str (Step2c.ref_period_cell row))
          = ((1000000 # 1000000)%Q, "ECB SDW " +:+ (Step2c.rates_for
               (Step2c.str (Step2c.ref_period_cell row))).2)) as Hfx.
  { unfold Step2c.get_fx_rate, Step2c.rates_for.
    destruct (PyStr.contains "2025-12" _); vm_compute; reflexivity. }
  assert (Step2c.fx_rate_to_eur o == 1)%Q as Hr.
  { subst o. rewrite convert_rate, Hc, Hfx. reflexivity. }
  split; [exact Hr|].
  split; [subst o; unfold Step2c.convert; rewrite Hc, Hfx; reflexivity|].
  split.
  { subst o. unfold Step2c.convert. rewrite Hc, Hfx. cbn [Step2c.fx_source].
    unfold Step2c.rates_for. destruct (PyStr.contains "2025-12" _); discriminate. }
  pose proof (convert_nums row) as Hn. cbv zeta in Hn. fold o n in Hn.
  set (rate := Step2c.fx_rate_to_eur o) in *.
  unfold Step2c.get at 1 3. rewrite Hn. clear Hn.
  split; [|split].
  - rewrite !lookup_insert_ne by done. rewrite lookup_insert_eq.
    apply to_eur_rate_1, Hr.
  - rewrite !lookup_insert_ne by done. rewrite lookup_insert_eq.
    apply to_eur_rate_1, Hr.
  - unfold converted_sector_columns.
    repeat apply Forall_cons_2; [..|apply Forall_nil_2]; unfold Step2c.get;
      rewrite ?lookup_insert_ne by done; rewrite lookup_insert_eq;
      apply fmul_rate_1, Hr.
Qed.

Lemma euro_rows_keep_their_amounts_witness :
  (Step2c.fx_rate_to_eur
     (Step2c.convert
        {| Step2c.qs := as_qs_in (score_fixture entity_A);
           Step2c.lei_clean := "AAAAAAAAAAAAAAAAAAAA";
           Step2c.currency_cell := Some " iso4217:eur";
           Step2c.ref_period_cell := Some "2025-12-31" |}) == 1)%Q.
Proof.
  refine (proj1 (euro_rows_keep_their_amounts _ _)).
  vm_compute. reflexivity.
Defined.

(** A bank whose currency is not known to the merge, because the banks
    table has no row of its identifier or because the first such row has an
    empty currency cell, is converted as if it reported in euro: its code
    is recorded as [NAN], the rate is 1 with provenance [assumed_EUR], and
    its totals are carried over unchanged. *)
Theorem missing_currency_is_assumed_euro
    (banks : list Step2c.bank) (r : Step2c.qs_in) :
  (forall b,
     head (filter (fun b => PyStr.strip (Step2c.bank_lei b) = PyStr.strip (Step2c.lei r))
             banks) = Some b ->
     Step2c.bank_currency b = None) ->
  let n := Step2c.nums r in
  let o := Step2c.convert (Step2c.merge_row banks r) in
  Step2c.base_currency o = "NAN"
  /\ Step2c.fx_rate_to_eur o = 1%Q
  /\ Step2c.fx_source o = "assumed_EUR"
  /\ cell_eq (Step2c.get (Step2c.out_nums o) "gca_eur_m") (Step2c.get n "grand_total_eur_m")
  /\ cell_eq (Step2c.get (Step2c.out_nums o) "fossil_eur_m")
       (Step2c.get n "fossil_total_eur_m").
Proof.
  intros Hb n o.
  assert (Step2c.currency_cell (Step2c.merge_row banks r) = None) as Hc.
  { unfold Step2c.merge_row.
    destruct (filter _ banks) as [|b l]; [reflexivity|].
    cbn [Step2c.currency_cell]. apply Hb. reflexivity. }
  assert (Step2c.qs (Step2c.merge_row banks r) = r) as Hq.
  { unfold Step2c.merge_row. destruct (filter _ banks); reflexivity. }
  assert (forall p, Step2c.get_fx_rate "NAN" p = (1%Q, "assumed_EUR")) as Hfx.
  { intros p. unfold Step2c.get_fx_rate, Step2c.rates_for.
    destruct (PyStr.contains "2025-12" p); vm_compute; reflexivity. }
  assert (Step2c.normalize_currency (Step2c.str None) = "NAN") as Hn
    by (vm_compute; reflexivity).
  assert (Step2c.fx_rate_to_eur o = 1%Q) as Hr.
  { subst o. rewrite convert_rate, Hc, Hn, Hfx. reflexivity. }
  split; [subst o; unfold Step2c.convert; rewrite Hc, Hn, Hfx; reflexivity|].
  split; [exact Hr|].
  split; [subst o; unfold Step2c.convert; rewrite Hc, Hn, Hfx; reflexivity|].
  pose proof (convert_nums (Step2c.merge_row banks r)) as Hnums.
  cbv zeta in Hnums. fold o in Hnums. rewrite Hq in Hnums. fold n in Hnums.
  unfold Step2c.get at 1 3. rewrite Hnums. clear Hnums.
  split.
  - rewrite !lookup_insert_ne by done. rewrite lookup_insert_eq.
    apply to_eur_rate_1. rewrite Hr. reflexivity.
  - rewrite !lookup_insert_ne by done. rewrite lookup_insert_eq.
    apply to_eur_rate_1. rewrite Hr. reflexivity.
Qed.

Lemma missing_currency_is_assumed_euro_witness :
  Step2c.fx_source
    (Step2c.convert
       (Step2c.merge_row
          [ {| Step2c.bank_lei := "BBBBBBBBBBBBBBBBBBBB";
               Step2c.bank_currency := Some "PLN";
               Step2c.bank_ref_period := Some "2025-06-30" |};
            {| Step2c.bank_lei := " AAAAAAAAAAAAAAAAAAAA";
               Step2c.bank_currency := None;
               Step2c.bank_ref_period := Some "2025-06-30" |} ]
          (as_qs_in (score_fixture entity_A))))
  = "assumed_EUR".
Proof.
  refine (proj1 (proj2 (proj2 (missing_currency_is_assumed_euro _ _ _)))).
  intros b Hb. vm_compute in Hb. injection Hb as <-. reflexivity.
Defined.

(** ** The sort orders the rows *)

Section SortSorted.
Context {A : Type} (before : A -> A -> bool).
Hypothesis before_total : forall x y, before x y = false -> before y x = true.
Hypothesis before_trans :
  forall x y z, before x y = true -> before y z = true -> before x z = true.

Lemma insert_by_sorted x (l : list A) :
  StronglySorted (fun a b => before a b = true) l ->
  StronglySorted (fun a b => before a b = true) (insert_by before x l).
Proof.
  induction 1 as [|y l Hs IH Hy]; cbn [insert_by].
  - constructor; [constructor|constructor].
  - destruct (before x y) eqn:E.
    + constructor; [by constructor|].
      constructor; [exact E|].
      eapply Forall_impl; [exact Hy|]. intros z Hz. by eapply before_trans.
    + constructor; [exact IH|].
      apply Forall_forall. intros z Hz.
      rewrite (insert_by_perm before x l) in Hz.
      apply elem_of_cons in Hz as [->|Hz]; [by apply before_total|].
      rewrite Forall_forall in Hy. by apply Hy.
Qed.

Lemma sort_by_sorted (l : list A) :
  StronglySorted (fun a b => before a b = true) (sort_by before l).
Proof.
  induction l as [|x l IH]; cbn [sort_by foldr]; [constructor|].
  by apply insert_by_sorted.
Qed.
End SortSorted.

Lemma StronglySorted_strengthen {A} (R R' : A -> A -> Prop) (P : A -> Prop) (l : list A) :
  (forall x y, P x -> P y -> R x y -> R' x y) ->
  Forall P l -> StronglySorted R l -> StronglySorted R' l.
Proof.
  intros HR HP Hs. induction Hs as [|x l Hs IH Hx]; [constructor|].
  apply Forall_cons in HP as [Px HP].
  constructor; [by apply IH|].
  rewrite Forall_forall in Hx, HP. apply Forall_forall. intros y Hy.
  apply HR; auto.
Qed.

Lemma Qle_bool_total a b : Qle_bool a b = false -> Qle_bool b a = true.
Proof.
  intros H. apply Qle_bool_iff.
  destruct (Qlt_le_dec b a) as [Hlt|Hle]; [by apply Qlt_le_weak|].
  apply Qle_bool_iff in Hle. congruence.
Qed.

Lemma Qle_bool_trans a b c :
  Qle_bool a b = true -> Qle_bool b c = true -> Qle_bool a c = true.
Proof.
  rewrite !Qle_bool_iff. intros. by eapply Qle_trans.
Qed.

Lemma step2c_before_total x y :
  Step2c.before x y = false -> Step2c.before y x = true.
Proof.
  unfold Step2c.before.
  destruct (Step2c.quant_score_of x), (Step2c.quant_score_of y); try done.
  apply Qle_bool_total.
Qed.

Lemma step2c_before_trans x y z :
  Step2c.before x y = true -> Step2c.before y z = true -> Step2c.before x z = true.
Proof.
  unfold Step2c.before.
  destruct (Step2c.quant_score_of x), (Step2c.quant_score_of y),
    (Step2c.quant_score_of z); try done.
  intros H1 H2. by eapply Qle_bool_trans.
Qed.

Lemma convert_quant_score row :
  Step2c.quant_score_of (Step2c.convert row)
  = Step2c.get (Step2c.nums (Step2c.qs row)) "quant_score".
Proof.
  unfold Step2c.quant_score_of. unfold Step2c.get at 1.
  pose proof (convert_nums row) as Hn. cbv zeta in Hn. rewrite Hn.
  rewrite !lookup_insert_ne by done. rewrite lookup_insert_eq. reflexivity.
Qed.

Lemma merge_row_qs banks r : Step2c.qs (Step2c.merge_row banks r) = r.
Proof. unfold Step2c.merge_row. destruct (filter _ banks); reflexivity. Qed.

(** The table that step 2c saves holds exactly the converted rows of the
    QuantScore rows that have a ratio, each as often as it was read, and
    no row of it lacks a ratio; the rows stand in descending order of the
    ratio, every row before all rows of a smaller or equal ratio. *)
Theorem currency_output_ranked (banks : list Step2c.bank) (qs_rows : list Step2c.qs_in) :
  let out := Step2c.run banks qs_rows in
  out ≡ₚ (fun r => Step2c.convert (Step2c.merge_row banks r))
           <$> filter (fun r => Step2c.get (Step2c.nums r) "quant_score" <> None) qs_rows
  /\ StronglySorted
       (fun x y => exists a b, Step2c.quant_score_of x = Some a
                               /\ Step2c.quant_score_of y = Some b /\ (b <= a)%Q)
       out.
Proof.
  intros out. subst out. unfold Step2c.run.
  assert (filter (fun r => notna (Step2c.quant_score_of r) = true)
            (Step2c.convert <$> (Step2c.merge_row banks <$> qs_rows))
          = (fun r => Step2c.convert (Step2c.merge_row banks r))
              <$> filter (fun r => Step2c.get (Step2c.nums r) "quant_score" <> None) qs_rows)
    as Hf.
  { induction qs_rows as [|r l IH]; [reflexivity|].
    cbn [fmap list_fmap].
    destruct (Step2c.get (Step2c.nums r) "quant_score") as [q|] eqn:E.
    - rewrite filter_cons_True
        by (rewrite convert_quant_score, merge_row_qs, E; reflexivity).
      rewrite (filter_cons_True _ r) by (rewrite E; discriminate).
      cbn [fmap list_fmap]. f_equal. exact IH.
    - rewrite filter_cons_False
        by (rewrite convert_quant_score, merge_row_qs, E; discriminate).
      rewrite (filter_cons_False _ r) by (rewrite E; intros H; by apply H).
      exact IH. }
  split.
  - rewrite sort_by_perm, Hf. reflexivity.
  - eapply (StronglySorted_strengthen (fun a b => Step2c.before a b = true) _
              (fun r => notna (Step2c.quant_score_of r) = true)).
    + intros x y Px Py. unfold Step2c.before.
      destruct (Step2c.quant_score_of x) as [a|]; [|discriminate Px].
      destruct (Step2c.quant_score_of y) as [b|]; [|discriminate Py].
      intros H. exists a, b. by rewrite <- Qle_bool_iff.
    + apply Forall_forall. intros x Hx.
      rewrite sort_by_perm in Hx. by apply list_elem_of_filter in Hx as [? _].
    + apply sort_by_sorted; [apply step2c_before_total|apply step2c_before_trans].
Qed.

Example currency_output_on_the_fixture :
  Step2c.out_lei <$> Step2c.run [bank_pln]
    [as_qs_in (score_fixture entity_C); as_qs_in (score_fixture entity_B);
     as_qs_in (score_fixture entity_A)]
  = ["AAAAAAAAAAAAAAAAAAAA"; "BBBBBBBBBBBBBBBBBBBB"].
Proof. vm_compute. reflexivity. Qed.

(** ** The scores of one bank *)

Lemma clamp_range z : (0 <= Scoring.clamp z <= 2)%Z.
Proof. unfold Scoring.clamp. lia. Qed.

Lemma clamp_fixed z : (0 <= z <= 2)%Z -> Scoring.clamp z = z.
Proof. unfold Scoring.clamp. lia. Qed.

(** The validation loop over distinct keys: it succeeds exactly when every
    key is in the reply with a value that converts to an integer, and then
    replaces each of these values by its clamped integer. *)
Lemma validate_Some keys :
  NoDup keys -> forall scores scores',
  Scoring.validate scores keys = Some scores' ->
  (forall k, k ∈ keys ->
     exists v z, scores !! k = Some v /\ Scoring.int_of v = Some z
                 /\ scores' !! k = Some (Scoring.JInt (Scoring.clamp z)))
  /\ (forall k, k ∉ keys -> scores' !! k = scores !! k).
Proof.
  induction 1 as [|key keys Hnin Hnd IH]; intros scores scores' Hv;
    cbn [Scoring.validate] in Hv.
  - apply (inj Some) in Hv. subst scores'. split; [|done].
    intros k Hk. by apply elem_of_nil in Hk.
  - destruct (scores !! key) as [v|] eqn:Ek; [|discriminate Hv].
    destruct (Scoring.int_of v) as [z|] eqn:Ez; [|discriminate Hv].
    destruct (IH _ _ Hv) as [Hin Hout]. split.
    + intros k Hk. apply elem_of_cons in Hk as [->|Hk].
      * exists v, z. split; [exact Ek|]. split; [exact Ez|].
        rewrite (Hout key Hnin). apply lookup_insert_eq.
      * destruct (Hin k Hk) as (v' & z' & Hl & Hi & Hs).
        assert (key <> k) as Hne by (intros ->; contradiction).
        rewrite lookup_insert_ne in Hl by exact Hne. eauto.
    + intros k Hk. apply not_elem_of_cons in Hk as [Hne Hk].
      rewrite (Hout k Hk). apply lookup_insert_ne. congruence.
Qed.


Lemma required_NoDup : NoDup Scoring.required.
Proof.
  unfold Scoring.required.
  repeat (apply NoDup_cons_2;
          [rewrite ?elem_of_cons, elem_of_nil; intros H; decompose [or] H;
           first [discriminate | contradiction]|]).
  apply NoDup_nil_2.
Qed.

Ltac in_required :=
  unfold Scoring.required;
  repeat first [apply list_elem_of_here | apply list_elem_of_further].

Lemma score_at_validated scores keys scores' k :
  NoDup keys -> Scoring.validate scores keys = Some scores' -> k ∈ keys ->
  exists v z, scores !! k = Some v /\ Scoring.int_of v = Some z
              /\ Scoring.score_at scores' k = Scoring.clamp z.
Proof.
  intros Hnd Hv Hk.
  destruct (proj1 (validate_Some keys Hnd _ _ Hv) k Hk) as (v & z & Hl & Hi & Hs).
  exists v, z. split; [exact Hl|]. split; [exact Hi|].
  unfold Scoring.score_at. by rewrite Hs.
Qed.

(** An [ok] result carries, in each of the five dimensions, the clamped
    integer of the value of the reply, so a number among 0, 1 and 2; its
    raw score is their sum, between 0 and 10, and its normalised score is
    a tenth of it, between 0 and 1. *)
Theorem score_bank_ok_is_in_range
    (l nm : string) (reply : option (gmap string Scoring.json)) :
  let r := Scoring.score_bank l nm reply in
  Scoring.scoring_status r = "ok" ->
  exists scores s c f k p,
    reply = Some scores
    /\ Forall2 (fun key x => exists v z, scores !! key = Some v
                               /\ Scoring.int_of v = Some z /\ x = Scoring.clamp z)
         Scoring.required [s; c; f; k; p]
    /\ Scoring.specificity r = Some s /\ Scoring.completeness r = Some c
    /\ Scoring.forward_looking r = Some f /\ Scoring.consistency r = Some k
    /\ Scoring.comparability r = Some p
    /\ Forall (fun x => (0 <= x <= 2)%Z) [s; c; f; k; p]
    /\ Scoring.das_raw r = Some (s + c + f + k + p)%Z
    /\ (0 <= s + c + f + k + p <= 10)%Z
    /\ Scoring.das_normalized r = Some (inject_Z (s + c + f + k + p) / 10)%Q
    /\ (0 <= inject_Z (s + c + f + k + p) / 10 <= 1)%Q.
Proof.
  intros r. subst r. unfold Scoring.score_bank.
  destruct reply as [scores|]; [|discriminate].
  destruct (Scoring.validate scores Scoring.required) as [scores'|] eqn:Hv;
    [|discriminate].
  intros _.
  assert (forall key, key ∈ Scoring.required ->
            exists v z, scores !! key = Some v /\ Scoring.int_of v = Some z
                        /\ Scoring.score_at scores' key = Scoring.clamp z) as Hk
    by (intros key; apply (score_at_validated _ _ _ _ required_NoDup Hv)).
  assert (forall key, key ∈ Scoring.required ->
            (0 <= Scoring.score_at scores' key <= 2)%Z) as Hr.
  { intros key Hin. destruct (Hk key Hin) as (v & z & _ & _ & ->). apply clamp_range. }
  cbn [Scoring.specificity Scoring.completeness Scoring.forward_looking
       Scoring.consistency Scoring.comparability Scoring.das_raw
       Scoring.das_normalized].
  assert ("specificity" ∈ Scoring.required) as H1 by in_required.
  assert ("completeness" ∈ Scoring.required) as H2 by in_required.
  assert ("forward_looking" ∈ Scoring.required) as H3 by in_required.
  assert ("consistency" ∈ Scoring.required) as H4 by in_required.
  assert ("comparability" ∈ Scoring.required) as H5 by in_required.
  pose proof (Hr _ H1). pose proof (Hr _ H2). pose proof (Hr _ H3).
  pose proof (Hr _ H4). pose proof (Hr _ H5).
  set (s := Scoring.score_at scores' "specificity") in *.
  set (c := Scoring.score_at scores' "completeness") in *.
  set (f := Scoring.score_at scores' "forward_looking") in *.
  set (k := Scoring.score_at scores' "consistency") in *.
  set (p := Scoring.score_at scores' "comparability") in *.
  assert (foldl Z.add 0%Z (Scoring.score_at scores' <$> Scoring.required)
          = (s + c + f + k + p)%Z) as Hsum by reflexivity.
  rewrite Hsum.
  exists scores, s, c, f, k, p.
  split; [reflexivity|].
  split.
  { unfold Scoring.required.
    repeat (apply Forall2_cons; split;
            [match goal with |- exists v z, _ !! ?key = _ /\ _ =>
               destruct (Hk key ltac:(assumption)) as (v & z & ? & ? & ?);
               exists v, z; auto end|]).
    apply Forall2_nil_2. }
  do 5 (split; [reflexivity|]).
  split; [repeat (apply Forall_cons_2; [assumption|]); apply Forall_nil_2|].
  split; [reflexivity|].
  split; [lia|].
  split; [reflexivity|].
  assert (0 <= inject_Z (s + c + f + k + p) <= 10)%Q as [Hlo Hhi].
  { split.
    - change 0%Q with (inject_Z 0). rewrite <- Zle_Qle. lia.
    - change 10%Q with (inject_Z 10). rewrite <- Zle_Qle. lia. }
  split.
  - apply Qle_shift_div_l; [reflexivity|]. lra.
  - apply Qle_shift_div_r; [reflexivity|]. lra.
Qed.

Lemma score_bank_ok_is_in_range_witness :
  exists z,
    Scoring.das_raw
      (Scoring.score_bank "AAAAAAAAAAAAAAAAAAAA" "Bank A"
         (Some (list_to_map
                  [ ("specificity", Scoring.JInt 5);
                    ("completeness", Scoring.JFloat (19 # 10));
                    ("forward_looking", Scoring.JStr " 2 ");
                    ("consistency", Scoring.JBool true);
                    ("comparability", Scoring.JInt (-3));
                    ("rationale", Scoring.JStr "targets are stated") ])))
    = Some z /\ (0 <= z <= 10)%Z.
Proof.
  destruct (score_bank_ok_is_in_range "AAAAAAAAAAAAAAAAAAAA" "Bank A"
              (Some (list_to_map
                  [ ("specificity", Scoring.JInt 5);
                    ("completeness", Scoring.JFloat (19 # 10));
                    ("forward_looking", Scoring.JStr " 2 ");
                    ("consistency", Scoring.JBool true);
                    ("comparability", Scoring.JInt (-3));
                    ("rationale", Scoring.JStr "targets are stated") ])))
    as (scores & s & c & f & k & p & _ & _ & _ & _ & _ & _ & _ & _ & Hraw & Hrange & _).
  - vm_compute. reflexivity.
  - exists (s + c + f + k + p)%Z. split; [exact Hraw|exact Hrange].
Defined.


(** ** The composite index: one row per scored bank, ranked *)

Lemma step3_before_total x y :
  Step3.before x y = false -> Step3.before y x = true.
Proof.
  unfold Step3.before.
  destruct (Step3.dci x) as [|p|[]], (Step3.dci y) as [|q|[]]; cbn; try done.
  apply Qle_bool_total.
Qed.

Lemma step3_before_trans x y z :
  Step3.before x y = true -> Step3.before y z = true -> Step3.before x z = true.
Proof.
  unfold Step3.before.
  destruct (Step3.dci x) as [|p|[]], (Step3.dci y) as [|q|[]],
    (Step3.dci z) as [|s|[]]; cbn; try done.
  intros H1 H2. by eapply Qle_bool_trans.
Qed.

Lemma merged_das mx qs_df das_df :
  Step3.das <$> (das_df ≫= Step3.merge_row mx (Step3.drop_duplicates qs_df)) = das_df.
Proof.
  induction das_df as [|d l IH]; [reflexivity|].
  cbn [mbind list_bind]. rewrite fmap_app, IH.
  destruct (merge_row_drop_duplicates mx qs_df d) as (gca & ccy & ctry & ->).
  reflexivity.
Qed.

(** The composite table has exactly one row for each row of the DAS
    table, whatever the QuantScore table holds, and its rows are ranked:
    a row without an index (NaN) is followed only by rows without an
    index, and of two rows with a finite index the earlier one has the
    larger or equal index. *)
Theorem composite_table_ranked
    (das_df : list Step3.das_row) (qs_df : list Step3.qs_row) :
  let out := Step3.compute_dci das_df qs_df in
  Step3.das <$> out ≡ₚ das_df
  /\ length out = length das_df
  /\ StronglySorted
       (fun x y => (Step3.dci x = Step3.XNaN -> Step3.dci y = Step3.XNaN)
                   /\ (forall a b, Step3.dci x = Step3.XFin a ->
                         Step3.dci y = Step3.XFin b -> (b <= a)%Q))
       out.
Proof.
  intros out. subst out. unfold Step3.compute_dci.
  assert (Step3.das <$> sort_by Step3.before
            (das_df ≫= Step3.merge_row (Step3.qs_max qs_df) (Step3.drop_duplicates qs_df))
          ≡ₚ das_df) as Hp.
  { rewrite sort_by_perm, merged_das. reflexivity. }
  split; [exact Hp|]. split.
  - rewrite <- (length_fmap Step3.das). by rewrite Hp.
  - eapply (StronglySorted_strengthen (fun a b => Step3.before a b = true) _
              (fun _ => True)).
    + intros x y _ _. unfold Step3.before.
      destruct (Step3.dci x) as [|p|[]], (Step3.dci y) as [|q|[]]; cbn;
        intros H; split; try done; try discriminate.
      intros a b [= <-] [= <-]. by apply Qle_bool_iff.
    + apply Forall_forall. done.
    + apply sort_by_sorted; [apply step3_before_total|apply step3_before_trans].
Qed.

(** ** The composite index: the range of the index *)

Lemma rint_floor_or_succ q :
  Step3.rint q = Qfloor q
  \/ (Step3.rint q = (Qfloor q + 1)%Z /\ (inject_Z (Qfloor q) < q)%Q).
Proof.
  unfold Step3.rint.
  destruct (q - inject_Z (Qfloor q) ?= 1 # 2)%Q eqn:E.
  - destruct (Z.even (Qfloor q)); [by left|]. right. split; [reflexivity|].
    apply Qeq_alt in E. lra.
  - by left.
  - right. split; [reflexivity|]. apply Qgt_alt in E. lra.
Qed.

Lemma rint_ge k q : (inject_Z k <= q)%Q -> (k <= Step3.rint q)%Z.
Proof.
  intros H.
  assert (k <= Qfloor q)%Z as Hk.
  { assert (inject_Z k < inject_Z (Qfloor q + 1))%Q as Hlt
      by (eapply Qle_lt_trans; [exact H|apply Qlt_floor]).
    rewrite <- Zlt_Qlt in Hlt. lia. }
  destruct (rint_floor_or_succ q) as [->|[-> _]]; lia.
Qed.

Lemma rint_le k q : (q <= inject_Z k)%Q -> (Step3.rint q <= k)%Z.
Proof.
  intros H. destruct (rint_floor_or_succ q) as [->|[-> Hlt]].
  - rewrite Zle_Qle. eapply Qle_trans; [apply Qfloor_le|exact H].
  - assert (inject_Z (Qfloor q) < inject_Z k)%Q as Hk
      by (eapply Qlt_le_trans; [exact Hlt|exact H]).
    rewrite <- Zlt_Qlt in Hk. lia.
Qed.

Lemma round4_eq q : (Step3.round4 q == inject_Z (Step3.rint (q * 10000)) / 10000)%Q.
Proof. unfold Step3.round4. apply Qred_correct. Qed.

(** Rounding to four places keeps a number between two bounds that have at
    most four places themselves. *)
Lemma round4_between lo hi q :
  (inject_Z lo / 10000 <= q <= inject_Z hi / 10000)%Q ->
  (inject_Z lo / 10000 <= Step3.round4 q <= inject_Z hi / 10000)%Q.
Proof.
  intros [Hlo Hhi]. rewrite round4_eq.
  assert (inject_Z lo <= q * 10000)%Q as Hlo'.
  { assert (inject_Z lo == inject_Z lo / 10000 * 10000)%Q as E by field.
    rewrite E. lra. }
  assert (q * 10000 <= inject_Z hi)%Q as Hhi'.
  { assert (inject_Z hi == inject_Z hi / 10000 * 10000)%Q as E by field.
    rewrite E. lra. }
  apply rint_ge in Hlo'. apply rint_le in Hhi'.
  rewrite Zle_Qle in Hlo', Hhi'.
  set (z := inject_Z (Step3.rint (q * 10000))) in *.
  split.
  - apply Qle_shift_div_l; [reflexivity|].
    setoid_replace (inject_Z lo / 10000 * 10000)%Q with (inject_Z lo)
      using relation Qeq by field.
    exact Hlo'.
  - apply Qle_shift_div_r; [reflexivity|].
    setoid_replace (inject_Z hi / 10000 * 10000)%Q with (inject_Z hi)
      using relation Qeq by field.
    exact Hhi'.
Qed.

Lemma round4_unit q : (0 <= q <= 1)%Q -> (0 <= Step3.round4 q <= 1)%Q.
Proof.
  intros H.
  assert (inject_Z 0 / 10000 == 0)%Q as E0 by reflexivity.
  assert (inject_Z 10000 / 10000 == 1)%Q as E1 by reflexivity.
  rewrite <- E0, <- E1. apply round4_between. rewrite E0, E1. exact H.
Qed.

Lemma round4_signed_unit q : (-1 <= q <= 1)%Q -> (-1 <= Step3.round4 q <= 1)%Q.
Proof.
  intros H.
  assert (inject_Z (-10000) / 10000 == -1)%Q as E0 by reflexivity.
  assert (inject_Z 10000 / 10000 == 1)%Q as E1 by reflexivity.
  rewrite <- E0, <- E1. apply round4_between. rewrite E0, E1. exact H.
Qed.

Lemma first_pct_in qs_df l p :
  first_pct qs_df l = Some p ->
  exists q, q ∈ qs_df /\ Step3.quant_score_pct q = Some p.
Proof.
  unfold first_pct.
  destruct (filter (fun r => Step3.qs_lei r = l) qs_df) as [|r t] eqn:E; [discriminate|].
  intros Hp. exists r. split; [|exact Hp].
  assert (r ∈ filter (fun r => Step3.qs_lei r = l) qs_df) as Hr
    by (rewrite E; apply list_elem_of_here).
  by apply list_elem_of_filter in Hr as [_ ?].
Qed.

(** The ratio of a row divided by a positive maximum of non-negative
    ratios lies between 0 and 1, and so does its rounding. *)
Lemma normalized_in_unit qs_df m p l :
  Step3.qs_max qs_df = Some m -> (0 < m)%Q ->
  (forall q p, q ∈ qs_df -> Step3.quant_score_pct q = Some p -> (0 <= p)%Q) ->
  first_pct qs_df l = Some p ->
  Step3.xdiv (Some p) (Some m) = Step3.XFin (p / m) /\ (0 <= p / m <= 1)%Q.
Proof.
  intros Hmax Hm Hpos Hp.
  destruct (first_pct_in _ _ _ Hp) as (q & Hq & Hqp).
  pose proof (Hpos q p Hq Hqp) as H0.
  pose proof (proj2 (qs_max_spec _ _ Hmax) q p Hq Hqp) as H1.
  split.
  - unfold Step3.xdiv. destruct (Qeq_bool m 0) eqn:E; [|reflexivity].
    apply Qeq_bool_iff in E. lra.
  - split.
    + apply Qle_shift_div_l; [exact Hm|]. lra.
    + apply Qle_shift_div_r; [exact Hm|]. lra.
Qed.

Lemma validated_sum_range scores scores' :
  Scoring.validate scores Scoring.required = Some scores' ->
  (0 <= foldl Z.add 0 (Scoring.score_at scores' <$> Scoring.required) <= 10)%Z.
Proof.
  intros Hv.
  assert (Forall (fun key => (0 <= Scoring.score_at scores' key <= 2)%Z) Scoring.required)
    as Hr.
  { apply Forall_forall. intros key Hin.
    destruct (score_at_validated _ _ _ _ required_NoDup Hv Hin) as (v & z & _ & _ & ->).
    apply clamp_range. }
  unfold Scoring.required in *.
  repeat (apply Forall_cons in Hr as [? Hr]).
  cbn [fmap list_fmap foldl]. lia.
Qed.

(** The normalised score of a scored bank, when it is there, lies between
    0 and 1; it is missing exactly on the failed row. *)
Lemma scored_das_in_range l nm reply :
  match Scoring.das_normalized (Scoring.score_bank l nm reply) with
  | Some d => (0 <= d <= 1)%Q
  | None => Scoring.scoring_status (Scoring.score_bank l nm reply) = "failed"
  end.
Proof.
  unfold Scoring.score_bank. destruct reply as [scores|]; [|reflexivity].
  destruct (Scoring.validate scores Scoring.required) as [scores'|] eqn:Hv;
    [|reflexivity].
  cbn [Scoring.das_normalized].
  pose proof (validated_sum_range _ _ Hv) as [Hlo Hhi].
  set (z := foldl Z.add 0%Z (Scoring.score_at scores' <$> Scoring.required)) in *.
  rewrite Zle_Qle in Hlo, Hhi.
  change (inject_Z 0) with 0%Q in Hlo. change (inject_Z 10) with 10%Q in Hhi.
  split.
  - apply Qle_shift_div_l; [reflexivity|]. lra.
  - apply Qle_shift_div_r; [reflexivity|]. lra.
Qed.

(** The composite index of the banks that were scored.  When the largest
    ratio of the QuantScore table is positive and no ratio is negative, a
    row of the composite table has a normalised ratio between 0 and 1
    whenever its bank has a ratio, and an index between -1 and 1 whenever
    the bank also has a score; without a ratio both are missing, and with a
    ratio and a failed score the index alone is missing. *)
Theorem index_of_scored_banks_in_range
    (calls : list (string * string * option (gmap string Scoring.json)))
    (qs_df : list Step3.qs_row) (r : Step3.dci_row) (m : Q) :
  r ∈ Step3.compute_dci
        ((fun c => Scoring.das_row_of (Scoring.score_bank c.1.1 c.1.2 c.2)) <$> calls)
        qs_df ->
  Step3.qs_max qs_df = Some m ->
  (0 < m)%Q ->
  (forall q p, q ∈ qs_df -> Step3.quant_score_pct q = Some p -> (0 <= p)%Q) ->
  match Step3.m_quant_score_pct r, Step3.das_normalized (Step3.das r) with
  | Some _, Some _ =>
      exists n c, Step3.quant_score_normalized r = Step3.XFin n /\ (0 <= n <= 1)%Q
                  /\ Step3.dci r = Step3.XFin c /\ (-1 <= c <= 1)%Q
  | Some _, None =>
      (exists n, Step3.quant_score_normalized r = Step3.XFin n /\ (0 <= n <= 1)%Q)
      /\ Step3.dci r = Step3.XNaN
      /\ Step3.scoring_status (Step3.das r) = "failed"
  | None, _ =>
      Step3.quant_score_normalized r = Step3.XNaN /\ Step3.dci r = Step3.XNaN
  end.
Proof.
  intros (d & gca & ccy & ctry & Hd & -> & _)%elem_of_compute_dci Hmax Hm Hpos.
  apply list_elem_of_fmap in Hd as (c & -> & _).
  pose proof (scored_das_in_range c.1.1 c.1.2 c.2) as Hdas.
  set (sb := Scoring.score_bank c.1.1 c.1.2 c.2) in *.
  rewrite Hmax.
  cbn [Step3.joined Step3.das Step3.m_quant_score_pct Step3.quant_score_normalized
       Step3.dci Scoring.das_row_of Step3.das_normalized Step3.lei
       Step3.scoring_status].
  destruct (first_pct qs_df (Scoring.lei sb)) as [p|] eqn:Hp.
  - destruct (normalized_in_unit _ _ _ _ Hmax Hm Hpos Hp) as [-> Hn].
    destruct (Scoring.das_normalized sb) as [x|].
    + exists (Step3.round4 (p / m)), (Step3.round4 (x - p / m)).
      split; [reflexivity|]. split; [by apply round4_unit|].
      split; [reflexivity|]. apply round4_signed_unit. lra.
    + split; [|split; [reflexivity|exact Hdas]].
      exists (Step3.round4 (p / m)). split; [reflexivity|by apply round4_unit].
  - destruct (Scoring.das_normalized sb); split; reflexivity.
Qed.

Lemma index_of_scored_banks_in_range_witness :
  exists n c,
    Step3.quant_score_normalized
      (Step3.joined (Some 5%Q)
         (Scoring.das_row_of
            (Scoring.score_bank "AAAAAAAAAAAAAAAAAAAA" "Bank A"
               (Some (list_to_map
                        [ ("specificity", Scoring.JInt 2);
                          ("completeness", Scoring.JInt 1);
                          ("forward_looking", Scoring.JInt 2);
                          ("consistency", Scoring.JInt 1);
                          ("comparability", Scoring.JInt 0) ]))))
         (Some 5%Q) (Some 1000%Q) (Some "EUR") (Some "MT"))
    = Step3.XFin n /\ (0 <= n <= 1)%Q
    /\ Step3.dci
         (Step3.joined (Some 5%Q)
            (Scoring.das_row_of
               (Scoring.score_bank "AAAAAAAAAAAAAAAAAAAA" "Bank A"
                  (Some (list_to_map
                           [ ("specificity", Scoring.JInt 2);
                             ("completeness", Scoring.JInt 1);
                             ("forward_looking", Scoring.JInt 2);
                             ("consistency", Scoring.JInt 1);
                             ("comparability", Scoring.JInt 0) ]))))
            (Some 5%Q) (Some 1000%Q) (Some "EUR") (Some "MT"))
       = Step3.XFin c /\ (-1 <= c <= 1)%Q.
Proof.
  assert (Step3.joined (Some 5%Q)
            (Scoring.das_row_of
               (Scoring.score_bank "AAAAAAAAAAAAAAAAAAAA" "Bank A"
                  (Some (list_to_map
                           [ ("specificity", Scoring.JInt 2);
                             ("completeness", Scoring.JInt 1);
                             ("forward_looking", Scoring.JInt 2);
                             ("consistency", Scoring.JInt 1);
                             ("comparability", Scoring.JInt 0) ]))))
            (Some 5%Q) (Some 1000%Q) (Some "EUR") (Some "MT")
          ∈ Step3.compute_dci
              ((fun c => Scoring.das_row_of (Scoring.score_bank c.1.1 c.1.2 c.2))
                 <$> [("AAAAAAAAAAAAAAAAAAAA", "Bank A",
                       Some (list_to_map
                               [ ("specificity", Scoring.JInt 2);
                                 ("completeness", Scoring.JInt 1);
                                 ("forward_looking", Scoring.JInt 2);
                                 ("consistency", Scoring.JInt 1);
                                 ("comparability", Scoring.JInt 0) ]))])
              sample_A_max) as Hin by (vm_compute; constructor).
  assert (Step3.qs_max sample_A_max = Some 5%Q) as Hmax by (vm_compute; reflexivity).
  assert (forall q p, q ∈ sample_A_max -> Step3.quant_score_pct q = Some p -> (0 <= p)%Q)
    as Hpos.
  { intros q p Hq Hp. unfold sample_A_max in Hq.
    apply elem_of_cons in Hq as [->|Hq];
      [|apply list_elem_of_singleton in Hq as ->];
      cbn in Hp; injection Hp as <-; discriminate. }
  pose proof (index_of_scored_banks_in_range _ _ _ 5%Q Hin Hmax eq_refl Hpos) as H.
  vm_compute in H. vm_compute. exact H.
Defined.

(** ** The banks that are scored *)

Lemma text_before_total x y :
  TextSelection.before x y = false -> TextSelection.before y x = true.
Proof.
  unfold TextSelection.before.
  destruct (TextSelection.qual_text_chars x), (TextSelection.qual_text_chars y);
    try done.
  apply Qle_bool_total.
Qed.

Lemma text_before_trans x y z :
  TextSelection.before x y = true -> TextSelection.before y z = true ->
  TextSelection.before x z = true.
Proof.
  unfold TextSelection.before.
  destruct (TextSelection.qual_text_chars x), (TextSelection.qual_text_chars y),
    (TextSelection.qual_text_chars z); try done.
  intros H1 H2. by eapply Qle_bool_trans.
Qed.

Lemma text_drop_duplicates_sub l :
  TextSelection.drop_duplicates l `sublist_of` l.
Proof.
  induction l as [|r t IH]; [constructor|].
  cbn [TextSelection.drop_duplicates]. apply sublist_skip.
  etrans; [apply sublist_filter|exact IH].
Qed.

Lemma NoDup_fmap_filter {A B} (f : A -> B) (P : A -> Prop)
    `{!forall x, Decision (P x)} (l : list A) :
  NoDup (f <$> l) -> NoDup (f <$> filter P l).
Proof.
  induction l as [|x l IH]; [done|].
  cbn [fmap list_fmap]. intros [Hx Hl]%NoDup_cons.
  destruct (decide (P x)) as [HP|HP].
  - rewrite filter_cons_True by exact HP. cbn [fmap list_fmap].
    apply NoDup_cons_2; [|by apply IH].
    intros (y & Hy & Hin)%list_elem_of_fmap. apply Hx.
    apply list_elem_of_fmap. exists y. split; [exact Hy|].
    by apply list_elem_of_filter in Hin as [_ ?].
  - rewrite filter_cons_False by exact HP. by apply IH.
Qed.

Lemma text_drop_duplicates_NoDup l :
  NoDup (TextSelection.lei <$> TextSelection.drop_duplicates l).
Proof.
  induction l as [|r t IH]; [apply NoDup_nil_2|].
  cbn [TextSelection.drop_duplicates fmap list_fmap]. apply NoDup_cons_2.
  - intros (x & Hx & Hin)%list_elem_of_fmap.
    apply list_elem_of_filter in Hin as [Hne _]. congruence.
  - by apply NoDup_fmap_filter.
Qed.

(** In a list sorted by [R] the row kept for an identifier stands in front
    of every other row of the identifier. *)
Lemma text_drop_duplicates_first (R : TextSelection.bank -> TextSelection.bank -> Prop) l :
  StronglySorted R l ->
  forall x, x ∈ l ->
  exists o, o ∈ TextSelection.drop_duplicates l
            /\ TextSelection.lei o = TextSelection.lei x /\ (o = x \/ R o x).
Proof.
  induction 1 as [|r t Hs IH Hr]; intros x Hx; [by apply elem_of_nil in Hx|].
  cbn [TextSelection.drop_duplicates].
  apply elem_of_cons in Hx as [->|Hx].
  - exists r. split; [apply list_elem_of_here|]. split; [reflexivity|by left].
  - destruct (decide (TextSelection.lei x = TextSelection.lei r)) as [E|E].
    + exists r. split; [apply list_elem_of_here|]. split; [by symmetry|].
      right. rewrite Forall_forall in Hr. by apply Hr.
    + destruct (IH x Hx) as (o & Ho & Hl & Hor).
      exists o. split; [|by split].
      apply list_elem_of_further, list_elem_of_filter. split; [congruence|exact Ho].
Qed.

(** The banks that are scored: no identifier occurs twice among them, each
    of them is a row of the banks table with a text of more than a hundred
    characters, and every such row is represented by the row of its
    identifier, in the output, that has the longest text. *)
Theorem banks_with_text_spec (banks : list TextSelection.bank) :
  let out := TextSelection.banks_with_text banks in
  NoDup (TextSelection.lei <$> out)
  /\ (forall o, o ∈ out ->
        o ∈ banks /\ TextSelection.qual_text o <> None
        /\ exists a, TextSelection.qual_text_chars o = Some a /\ (100 < a)%Q)
  /\ (forall b n, b ∈ banks -> TextSelection.qual_text b <> None ->
        TextSelection.qual_text_chars b = Some n -> (100 < n)%Q ->
        exists o a, o ∈ out /\ TextSelection.lei o = TextSelection.lei b
                    /\ TextSelection.qual_text_chars o = Some a /\ (n <= a)%Q).
Proof.
  intros out. subst out. unfold TextSelection.banks_with_text.
  set (sel := filter (fun b => TextSelection.qualifies b = true) banks).
  assert (forall o, TextSelection.qualifies o = true <->
            TextSelection.qual_text o <> None
            /\ exists a, TextSelection.qual_text_chars o = Some a /\ (100 < a)%Q) as Hq.
  { intros o. unfold TextSelection.qualifies.
    destruct (TextSelection.qual_text o) as [t|],
      (TextSelection.qual_text_chars o) as [a|]; split.
    - intros H%Qpos_b_true. split; [done|]. exists a. split; [reflexivity|lra].
    - intros (_ & a' & [= <-] & Ha). apply Qpos_b_true. lra.
    - discriminate.
    - intros (_ & a' & [=] & _).
    - discriminate.
    - intros (H & _). by destruct H.
    - discriminate.
    - intros (H & _). by destruct H. }
  assert (forall o, o ∈ TextSelection.drop_duplicates (sort_by TextSelection.before sel) ->
            o ∈ sel) as Hsub.
  { intros o Ho.
    pose proof (elem_of_sublist _ _ _ Ho (text_drop_duplicates_sub _)) as Ho'.
    by rewrite sort_by_perm in Ho'. }
  split; [apply text_drop_duplicates_NoDup|]. split.
  - intros o Ho. apply Hsub in Ho. subst sel.
    apply list_elem_of_filter in Ho as [Hqo Hin].
    split; [exact Hin|]. by apply Hq.
  - intros b n Hb Ht Hn H100.
    assert (b ∈ sort_by TextSelection.before sel) as Hbs.
    { rewrite sort_by_perm. subst sel. apply list_elem_of_filter.
      split; [|exact Hb]. apply Hq. split; [exact Ht|]. eauto. }
    destruct (text_drop_duplicates_first _ _
                (sort_by_sorted TextSelection.before text_before_total
                   text_before_trans sel) b Hbs) as (o & Ho & Hl & Hor).
    pose proof (Hsub o Ho) as Hos. subst sel.
    apply list_elem_of_filter in Hos as [Hqo _].
    apply Hq in Hqo as (_ & a & Ha & _).
    exists o, a. split; [exact Ho|]. split; [exact Hl|]. split; [exact Ha|].
    destruct Hor as [->|Hbef].
    + rewrite Hn in Ha. injection Ha as <-. lra.
    + unfold TextSelection.before in Hbef. rewrite Ha, Hn in Hbef.
      by apply Qle_bool_iff.
Qed.

Lemma banks_with_text_spec_witness :
  exists o a,
    o ∈ TextSelection.banks_with_text
          [ {| TextSelection.lei := "AAAAAAAAAAAAAAAAAAAA";
               TextSelection.qual_text := Some "short text";
               TextSelection.qual_text_chars := Some 150%Q |};
            {| TextSelection.lei := "AAAAAAAAAAAAAAAAAAAA";
               TextSelection.qual_text := Some "long text";
               TextSelection.qual_text_chars := Some 900%Q |};
            {| TextSelection.lei := "BBBBBBBBBBBBBBBBBBBB";
               TextSelection.qual_text := None;
               TextSelection.qual_text_chars := Some 0%Q |} ]
    /\ TextSelection.lei o = "AAAAAAAAAAAAAAAAAAAA"
    /\ TextSelection.qual_text_chars o = Some a /\ (150 <= a)%Q.
Proof.
  refine (proj2 (proj2 (banks_with_text_spec _))
            {| TextSelection.lei := "AAAAAAAAAAAAAAAAAAAA";
               TextSelection.qual_text := Some "short text";
               TextSelection.qual_text_chars := Some 150%Q |} 150%Q _ _ eq_refl eq_refl).
  - apply list_elem_of_here.
  - discriminate.
Defined.
